(** * TmServer (TissueMAPS server): request handlers and startup recovery

    A shallow embedding of the Python sources

    - [tmserver/appfactory.py]   (startup task recovery),
    - [tmserver/experiment/upload.py] (upload registration and upload),
    - [tmaps/tool/result.py]     (ORM entity constructors),
    - [tmaps/jtui/api.py]        (Jterator UI job bookkeeping).

    Database tables are lists of records in row order, Python dictionaries
    are [gmap]s, exceptions are the [Raise] branch of [Py.result], and calls
    into the gc3pie engine are recorded in a trace. *)

From Stdlib Require Import ZArith String Ascii List Bool Lia DecimalString.
From stdpp Require Import base option list gmap strings.
Import ListNotations.
Local Open Scope string_scope.
Local Open Scope Z_scope.
Local Open Scope list_scope.

(* ================================================================== *)
(** * Python runtime: exceptions, truthiness, strings                  *)
(* ================================================================== *)

Module Py.

(** The exception classes the modelled code can raise. *)
Inductive exn : Type :=
| NameError (name : string)
| AttributeError (msg : string)
| KeyError (key : string)
| ValueError (msg : string)
| SystemExit (code : Z)
| IOError (path : string)
| MalformedRequestError (msg : string)
| InternalServerError (msg : string)
| MultipleResultsFound.

(** A computation either returns a value or raises. *)
Inductive result (A : Type) : Type :=
| Ok (a : A)
| Raise (e : exn).
Arguments Ok {A} a.
Arguments Raise {A} e.

(** Sequencing: the first exception raised ends the computation. *)
Global Instance result_bind : MBind result := λ A B k m,
  match m with
  | Ok a => k a
  | Raise e => Raise e
  end.

Global Instance result_ret : MRet result := λ A a, Ok a.

(** [not s] for a [str]: only the empty string is falsy. *)
Definition str_truthy (s : string) : bool :=
  match s with EmptyString => false | String _ _ => true end.

(** The double quote character, for messages that quote a name. *)
Definition dquote : string := String (ascii_of_nat 34) EmptyString.

(** [x in xs] on a list of strings. *)
Definition str_in (x : string) (xs : list string) : bool :=
  bool_decide (x ∈ xs).

(** ** Strings as character lists *)

Definition chars (s : string) : list ascii := list_ascii_of_string s.
Definition str (l : list ascii) : string := string_of_list_ascii l.

Definition newline : ascii := ascii_of_nat 10.
Definition slash : ascii := ascii_of_nat 47.
Definition dot : ascii := ascii_of_nat 46.
Definition underscore : ascii := ascii_of_nat 95.

(** [c in '0123456789']. *)
Definition is_digit (c : ascii) : bool :=
  (48 <=? nat_of_ascii c)%nat && (nat_of_ascii c <=? 57)%nat.

(** [s.startswith(prefix)] and [s.endswith(suffix)]. *)
Definition startswith (s prefix : string) : bool :=
  bool_decide (chars prefix `prefix_of` chars s).
Definition endswith (s suffix : string) : bool :=
  bool_decide (chars suffix `suffix_of` chars s).

(** [int(s)] for a decimal literal without sign. *)
Definition int (s : string) : result Z :=
  if forallb is_digit (chars s) && negb (bool_decide (chars s = [])) then
    Ok (fold_left (fun acc c => 10 * acc + (Z.of_nat (nat_of_ascii c) - 48)) (chars s) 0)
  else
    Raise (ValueError ("invalid literal for int() with base 10: " +:+ s)).

(** ['%.5d' % j]: the decimal digits, zero-padded to at least five. *)
Definition format_05d (j : Z) : string :=
  let digits := chars (NilEmpty.string_of_uint (N.to_uint (Z.to_N (Z.abs j)))) in
  let padded := replicate (5 - length digits)%nat (ascii_of_nat 48) ++ digits in
  if j <? 0 then String (ascii_of_nat 45) (str padded) else str padded.

(** ** [os.path] (posixpath) *)

(** [os.path.join(a, b)]. *)
Definition os_path_join (a b : string) : string :=
  if startswith b "/" then b
  else if bool_decide (a = "") || endswith a "/" then a +:+ b
  else a +:+ "/" +:+ b.

(** [p.rfind(c)], [-1] when [c] does not occur: the scan keeps the index of
    the latest occurrence seen. *)
Fixpoint rfind_from (c : ascii) (l : list ascii) (i last : Z) : Z :=
  match l with
  | [] => last
  | x :: l' => rfind_from c l' (i + 1) (if Ascii.eqb x c then i else last)
  end.

Definition rfind (c : ascii) (p : list ascii) : Z := rfind_from c p 0 (-1).

(** [os.path.basename(p)]: [i = p.rfind('/') + 1; return p[i:]]. *)
Definition os_path_basename (p : string) : string :=
  str (drop (Z.to_nat (rfind slash (chars p) + 1)) (chars p)).

(** [os.path.splitext(p)]: split at the last dot of the last path component,
    unless that component has nothing but dots before it. *)
Definition os_path_splitext (p : string) : string * string :=
  let sepIndex := rfind slash (chars p) in
  let dotIndex := rfind dot (chars p) in
  if sepIndex <? dotIndex then
    let head := take (Z.to_nat dotIndex) (chars p) in
    if existsb (fun c => negb (Ascii.eqb c dot)) (drop (Z.to_nat (sepIndex + 1)) head)
    then (str head, str (drop (Z.to_nat dotIndex) (chars p)))
    else (p, "")
  else (p, "").

(** ** [re]: a backtracking matcher for the patterns the handlers use *)

Inductive atom : Type :=
| Lit (c : ascii)     (* a literal character *)
| AnyChar             (* [.]: any character but a newline *)
| Digit.              (* [\d] *)

Inductive item : Type :=
| One (a : atom)
| Star (a : atom)     (* greedy [a*] *)
| Plus (a : atom)     (* greedy [a+] *)
| GroupOpen           (* [(] of group 1 *)
| GroupClose          (* [)] of group 1 *)
| EndAnchor.          (* [$] *)

Definition atom_matches (a : atom) (c : ascii) : bool :=
  match a with
  | Lit c' => Ascii.eqb c c'
  | AnyChar => negb (Ascii.eqb c newline)
  | Digit => is_digit c
  end.

(** Where group 1 starts and ends, as offsets into the subject. *)
Definition span : Type := option nat * option nat.

(** Greedy repetition: take one more character when possible, and fall back
    to the continuation [k] when the longer attempt fails. *)
Fixpoint star (a : atom) (k : list ascii → nat → span → option span)
    (s : list ascii) (pos : nat) (g : span) : option span :=
  match s with
  | c :: s' =>
      if atom_matches a c then
        match star a k s' (S pos) g with
        | Some r => Some r
        | None => k s pos g
        end
      else k s pos g
  | [] => k s pos g
  end.

(** Match the items at the current position of the subject. *)
Fixpoint match_here (r : list item) (s : list ascii) (pos : nat) (g : span) : option span :=
  match r with
  | [] => Some g
  | One a :: r' =>
      match s with
      | c :: s' => if atom_matches a c then match_here r' s' (S pos) g else None
      | [] => None
      end
  | Star a :: r' => star a (match_here r') s pos g
  | Plus a :: r' =>
      match s with
      | c :: s' => if atom_matches a c then star a (match_here r') s' (S pos) g else None
      | [] => None
      end
  | GroupOpen :: r' => match_here r' s pos (Some pos, g.2)
  | GroupClose :: r' => match_here r' s pos (g.1, Some pos)
  | EndAnchor :: r' =>
      match s with
      | [] => match_here r' s pos g
      | [c] => if Ascii.eqb c newline then match_here r' s pos g else None
      | _ => None
      end
  end.

(** [m.group(1)] of a match on [subject]. *)
Definition group1 (subject : list ascii) (g : span) : string :=
  match g with
  | (Some b, Some e) => str (take (e - b)%nat (drop b subject))
  | _ => ""
  end.

(** [re.match(r, subject)], reduced to its group 1. *)
Definition re_match (r : list item) (subject : string) : option string :=
  group1 (chars subject) <$> match_here r (chars subject) 0 (None, None).

(** [re.search(r, subject)]: the leftmost start position that matches. *)
Fixpoint search_from (r : list item) (s : list ascii) (pos : nat) : option span :=
  match match_here r s pos (None, None) with
  | Some g => Some g
  | None =>
      match s with
      | [] => None
      | _ :: s' => search_from r s' (S pos)
      end
  end.

Definition re_search (r : list item) (subject : string) : option string :=
  group1 (chars subject) <$> search_from r (chars subject) 0.

(** [m.group(1)] on the result of [re.match] or [re.search]. *)
Definition group (m : option string) : result string :=
  match m with
  | Some g => Ok g
  | None => Raise (AttributeError "'NoneType' object has no attribute 'group'")
  end.

(** ** Dictionaries *)

(** [dict(zip(keys, values))]: pairs up to the shorter list, a later pair
    overriding an earlier one with the same key. *)
Definition dict_zip {V : Type} (keys : list string) (values : list V) : gmap string V :=
  fold_left (fun m kv => <[kv.1 := kv.2]> m) (zip keys values) ∅.

(** ** Files *)

(** The file system as the handlers see it: the names [os.listdir] gives for
    a directory, in the order it gives them, and the content of each file. *)
Record FileSystem : Type := mkFileSystem {
  listdir : string → list string;
  file_content : string → option string
}.

(** [os.path.exists(path)]. *)
Definition os_path_exists (fs : FileSystem) (path : string) : bool :=
  bool_decide (is_Some (file_content fs path)).

(** [open(path).read()]. *)
Definition read (fs : FileSystem) (path : string) : result string :=
  match file_content fs path with
  | Some text => Ok text
  | None => Raise (IOError path)
  end.

(** [glob.glob(os.path.join(dirname, '*' + suffix))] for a [dirname] and a
    [suffix] without wildcard characters: the entries of the directory, in
    listing order, that do not start with a dot and end with [suffix]. *)
Definition glob_star (fs : FileSystem) (dirname suffix : string) : list string :=
  map (os_path_join dirname)
      (List.filter
         (fun n => negb (startswith n ".") && endswith n suffix)
         (listdir fs dirname)).

(** [for x in xs: ...] collecting results, stopping at the first exception. *)
Fixpoint for_each {A B : Type} (f : A → result B) (xs : list A) : result (list B) :=
  match xs with
  | [] => Ok []
  | x :: xs' => y ← f x; ys ← for_each f xs'; Ok (y :: ys)
  end.

End Py.

(* ================================================================== *)
(** * tmserver/appfactory.py                                           *)
(* ================================================================== *)

Module Appfactory.
Import Py.

(** Rows of [tm.Submission]: [top_task_id] is a nullable foreign key. *)
Record Submission : Type := mkSubmission {
  submission_id : Z;
  top_task_id : option Z
}.

(** Rows of [tm.Task]: primary key and processing state, the name of a
    gc3pie run state such as [RUNNING] or [TERMINATED]; the column is
    nullable, [None] is SQL NULL. *)
Record Task : Type := mkTask {
  task_id : Z;
  task_state : option string
}.

(** The main database as far as the startup code reads it. *)
Record MainDb : Type := mkMainDb {
  submissions : list Submission;
  tasks : list Task
}.

(** The set literal of [get_interrupted_tasks]. *)
Definition finished_states : list string :=
  ["STOPPED"; "TERMINATED"; "TERMINATING"].

(** [Task.id.in_(top_task_ids)] on the rows of the first query: SQL [IN]
    never matches a NULL entry. *)
Definition in_ (tid : Z) (top_task_ids : list (option Z)) : bool :=
  bool_decide (Some tid ∈ top_task_ids).

(** [~Task.state.in_(states)]: SQL [NOT IN] is unknown, hence not true, on
    a NULL state, so the filter drops such a row. *)
Definition not_in_ (state : option string) (states : list string) : bool :=
  match state with
  | Some s => negb (str_in s states)
  | None => false
  end.

(** [get_interrupted_tasks]: the two queries of the function, in order. *)
Definition get_interrupted_tasks (db : MainDb) : list Z :=
  let top_task_ids := map top_task_id (submissions db) in
  let rows :=
    List.filter
      (fun t => in_ (task_id t) top_task_ids
                && not_in_ (task_state t) finished_states)
      (tasks db) in
  map task_id rows.

(** Calls into the gc3pie extension, as the startup code issues them. *)
Inductive gc3pie_call : Type :=
| retrieve_task (tid : Z)
| continue_task (tid : Z).

(** The configuration values [create_app] branches on. *)
Record ServerConfig : Type := mkServerConfig {
  logging_verbosity : Z;
  secret_key : string
}.

(** The body of the recovery loop:
    [task = gc3pie.retrieve_task(tid); gc3pie.continue_task(task)]. *)
Definition restart_task (trace : list gc3pie_call) (tid : Z) : list gc3pie_call :=
  trace ++ [retrieve_task tid; continue_task tid].

(** [create_app], reduced to what decides the engine calls: the secret-key
    guard ([sys.exit(1)] on an empty key) and the recovery loop over
    [get_interrupted_tasks()].  The result is the trace of engine calls. *)
Definition create_app (cfg : ServerConfig) (db : MainDb) : result (list gc3pie_call) :=
  if String.eqb (secret_key cfg) "default_secret_key" then
    Ok (fold_left restart_task (get_interrupted_tasks db) [])
  else if negb (str_truthy (secret_key cfg)) then
    Raise (SystemExit 1)
  else
    Ok (fold_left restart_task (get_interrupted_tasks db) []).

(** How often [continue_task] was called on task [tid]. *)
Definition continue_count (tid : Z) (trace : list gc3pie_call) : nat :=
  length (List.filter
            (fun c => match c with
                      | continue_task t => Z.eqb t tid
                      | retrieve_task _ => false
                      end) trace).

(** A task that is the top-level task of some submission. *)
Definition is_top_task (db : MainDb) (tid : Z) : Prop :=
  ∃ s, s ∈ submissions db ∧ top_task_id s = Some tid.

(** The claim's notion of an interrupted task: a top-level task whose
    state is not one of the three. *)
Definition interrupted (db : MainDb) (tid : Z) : Prop :=
  ∃ t, t ∈ tasks db ∧ task_id t = tid ∧ is_top_task db tid ∧
       task_state t ≠ Some "STOPPED" ∧ task_state t ≠ Some "TERMINATED" ∧
       task_state t ≠ Some "TERMINATING".

(** A top-level task that has a state, and one that is none of the three. *)
Definition interrupted_in_state (db : MainDb) (tid : Z) : Prop :=
  ∃ t s, t ∈ tasks db ∧ task_id t = tid ∧ is_top_task db tid ∧
         task_state t = Some s ∧
         s ≠ "STOPPED" ∧ s ≠ "TERMINATED" ∧ s ≠ "TERMINATING".

(** A sample database: tasks 1 and 4 are top-level and running; task 6 is
    top-level and has no state yet. *)
Definition sample_db : MainDb :=
  mkMainDb
    [mkSubmission 10 (Some 1); mkSubmission 11 (Some 2);
     mkSubmission 12 None; mkSubmission 13 (Some 4); mkSubmission 14 (Some 1);
     mkSubmission 15 (Some 6)]
    [mkTask 1 (Some "RUNNING"); mkTask 2 (Some "TERMINATED"); mkTask 3 (Some "RUNNING");
     mkTask 4 (Some "SUBMITTED"); mkTask 5 (Some "STOPPED"); mkTask 6 None].

(** Two top-level tasks, the first without a state. *)
Definition null_state_db : MainDb :=
  mkMainDb [mkSubmission 10 (Some 1); mkSubmission 11 (Some 2)]
           [mkTask 1 None; mkTask 2 (Some "RUNNING")].

Definition sample_cfg : ServerConfig := mkServerConfig 1 "s3cr3t".

End Appfactory.

(* ================================================================== *)
(** * tmserver/experiment/upload.py                                    *)
(* ================================================================== *)

Module Upload.
Import Py.

(** [tmlib.models.status.FileUploadStatus]. *)
Inductive FileUploadStatus : Type := WAITING | UPLOADING | COMPLETE | FAILED.

Global Instance FileUploadStatus_eq_dec : EqDecision FileUploadStatus.
Proof. solve_decision. Defined.

(** A row of [tm.MicroscopeImageFile] or of [tm.MicroscopeMetadataFile];
    both tables have these columns. *)
Record MicroscopeFile : Type := mkMicroscopeFile {
  name : string;
  file_acquisition_id : Z;
  status : FileUploadStatus
}.

(** A row of [tm.Acquisition], with the [status] the handler reads. *)
Record Acquisition : Type := mkAcquisition {
  acquisition_pk : Z;
  acquisition_status : FileUploadStatus
}.

(** The experiment database: the experiment row's microscope type and the
    three tables the upload handlers touch. *)
Record ExperimentDb : Type := mkExperimentDb {
  microscope_type : string;
  acquisitions : list Acquisition;
  image_table : list MicroscopeFile;
  metadata_table : list MicroscopeFile
}.

(** [session.query(tm.Acquisition).get(acquisition_id)]. *)
Definition get_acquisition (db : ExperimentDb) (acquisition_id : Z) : option Acquisition :=
  List.find (fun a => Z.eqb (acquisition_pk a) acquisition_id) (acquisitions db).

(** The relationship [acquisition.microscope_image_files] (and its metadata
    twin): the rows of a table that point to the acquisition. *)
Definition files_of (acquisition : Acquisition) (table : list MicroscopeFile) : list MicroscopeFile :=
  List.filter (fun f => Z.eqb (file_acquisition_id f) (acquisition_pk acquisition)) table.

(** [Query.one_or_none()]. *)
Definition one_or_none {A : Type} (rows : list A) : result (option A) :=
  match rows with
  | [] => Ok None
  | [r] => Ok (Some r)
  | _ :: _ :: _ => Raise MultipleResultsFound
  end.

(** [filter_by(name=filename, acquisition_id=acquisition_id)]. *)
Definition filter_by (filename : string) (acquisition_id : Z) (table : list MicroscopeFile) : list MicroscopeFile :=
  List.filter
    (fun f => String.eqb (name f) filename && Z.eqb (file_acquisition_id f) acquisition_id)
    table.

(** How many rows of a table carry a name for an acquisition. *)
Definition registrations (filename : string) (acquisition_id : Z) (table : list MicroscopeFile) : nat :=
  length (filter_by filename acquisition_id table).

Definition not_registered_msg (filename : string) : string :=
  "File was not registered: " +:+ dquote +:+ filename +:+ dquote.

Definition registered_as_both_msg (filename : string) : string :=
  "File was registered as both image and metadata file: "
  +:+ dquote +:+ filename +:+ dquote.

(** Which table the selected [file_obj] is a row of. *)
Inductive file_kind : Type := ImageFile | MetadataFile.

(** The [if / elif / elif / else] ladder of [upload_file] that picks
    [file_obj], branch for branch. *)
Definition select_file_obj (imgfile metafile : option MicroscopeFile) (filename : string)
  : result (file_kind * MicroscopeFile) :=
  let is_imgfile := bool_decide (is_Some imgfile) in
  let is_metafile := bool_decide (is_Some metafile) in
  if negb is_metafile && negb is_imgfile then
    Raise (MalformedRequestError (not_registered_msg filename))
  else
    match imgfile, metafile with
    | Some f, _ => Ok (ImageFile, f)
    | None, Some f => Ok (MetadataFile, f)
    | None, None => Raise (MalformedRequestError (registered_as_both_msg filename))
    end.

(** [file_obj.status = s]: the attribute write reaches the row that
    [file_obj] is, the one with this name and acquisition. *)
Definition set_status (filename : string) (acquisition_id : Z) (s : FileUploadStatus)
    (table : list MicroscopeFile) : list MicroscopeFile :=
  map (fun f =>
         if String.eqb (name f) filename && Z.eqb (file_acquisition_id f) acquisition_id
         then mkMicroscopeFile (name f) (file_acquisition_id f) s
         else f)
      table.

Definition set_file_status (kind : file_kind) (filename : string) (acquisition_id : Z)
    (s : FileUploadStatus) (db : ExperimentDb) : ExperimentDb :=
  match kind with
  | ImageFile =>
      mkExperimentDb (microscope_type db) (acquisitions db)
        (set_status filename acquisition_id s (image_table db)) (metadata_table db)
  | MetadataFile =>
      mkExperimentDb (microscope_type db) (acquisitions db)
        (image_table db) (set_status filename acquisition_id s (metadata_table db))
  end.

(** The uploaded [FileStorage]: its client-side name and whether
    [f.save(...)] goes through ([None]) or raises with a message. *)
Record FileStorage : Type := mkFileStorage {
  filename : string;
  save_error : option string
}.

Section Handlers.

(** [tmlib.workflow.metaconfig.get_microscope_type_regex]: for a microscope
    type, the image and metadata filename patterns, each as its [search]
    predicate. *)
Variable get_microscope_type_regex : string → (string → bool) * (string → bool).

(** [werkzeug.secure_filename]. *)
Variable secure_filename : string → string.

(** The records one list comprehension of [register_upload] builds. *)
Definition new_files (regex : string → bool) (registered : list string) (acquisition : Acquisition)
    (files : list string) : list MicroscopeFile :=
  map (fun f => mkMicroscopeFile (secure_filename f) (acquisition_pk acquisition) WAITING)
      (List.filter
         (fun f => regex f && negb (str_in (secure_filename f) registered))
         files).

(** [register_upload]: the response (or exception) and the database after
    the handler. *)
Definition register_upload (db : ExperimentDb) (acquisition_id : Z) (files : list string)
  : result string * ExperimentDb :=
  if Nat.eqb (length files) 0 then
    (Raise (MalformedRequestError "No files supplied. Cannot register upload."), db)
  else
    let '(imgfile_regex, metadata_regex) := get_microscope_type_regex (microscope_type db) in
    match get_acquisition db acquisition_id with
    | None =>
        (Raise (AttributeError "'NoneType' object has no attribute 'microscope_image_files'"), db)
    | Some acquisition =>
        let img_filenames := map name (files_of acquisition (image_table db)) in
        let img_files := new_files imgfile_regex img_filenames acquisition files in
        let meta_filenames := map name (files_of acquisition (metadata_table db)) in
        let meta_files := new_files metadata_regex meta_filenames acquisition files in
        (Ok "ok",
         mkExperimentDb (microscope_type db) (acquisitions db)
           (image_table db ++ img_files) (metadata_table db ++ meta_files))
    end.

(** The condition under which the claim has a submitted name registered. *)
Definition to_register (regex : string → bool) (registered : list string) (f : string) : Prop :=
  regex f = true ∧ secure_filename f ∉ registered.

(** [upload_file] up to the choice of [file_obj]: [Ok None] stands for the
    early ['Acquisition complete'] response. *)
Definition upload_target (db : ExperimentDb) (acquisition_id : Z) (f : option FileStorage)
  : result (option (FileStorage * file_kind * MicroscopeFile)) :=
  match f with
  | None => Raise (MalformedRequestError "Missing file entry in this request.")
  | Some f =>
      if negb (str_truthy (filename f)) then
        Raise (MalformedRequestError "Missing file entry in this request.")
      else
        match get_acquisition db acquisition_id with
        | None => Raise (AttributeError "'NoneType' object has no attribute 'status'")
        | Some acquisition =>
            if bool_decide (acquisition_status acquisition = COMPLETE) then Ok None
            else
              let filename := secure_filename (filename f) in
              imgfile ← one_or_none (filter_by filename acquisition_id (image_table db));
              metafile ← one_or_none (filter_by filename acquisition_id (metadata_table db));
              sel ← select_file_obj imgfile metafile filename;
              Ok (Some (f, sel.1, sel.2))
        end
  end.

(** [upload_file]: the response (or exception) and the database with the
    status writes the handler made. *)
Definition upload_file (db : ExperimentDb) (acquisition_id : Z) (f : option FileStorage)
  : result string * ExperimentDb :=
  match upload_target db acquisition_id f with
  | Raise e => (Raise e, db)
  | Ok None => (Ok "Acquisition complete", db)
  | Ok (Some (f, kind, file_obj)) =>
      match status file_obj with
      | COMPLETE => (Ok "File already uploaded", db)
      | UPLOADING => (Ok "File upload already in progress", db)
      | _ =>
          let filename := name file_obj in
          let db1 := set_file_status kind filename acquisition_id UPLOADING db in
          match save_error f with
          | None => (Ok "ok", set_file_status kind filename acquisition_id COMPLETE db1)
          | Some error =>
              (Raise (InternalServerError ("Upload of file failed: " +:+ error)),
               set_file_status kind filename acquisition_id FAILED db1)
          end
      end
  end.

End Handlers.

(** Sample data: a microscope type whose image files end in [.tif] and whose
    metadata files end in [.mea]; file names are kept as they are. *)
Definition sample_regex (microscope_type : string) : (string → bool) * (string → bool) :=
  (fun f => endswith f ".tif", fun f => endswith f ".mea").

Definition sample_db : ExperimentDb :=
  mkExperimentDb "visiview" [mkAcquisition 7 WAITING]
    [mkMicroscopeFile "a.tif" 7 WAITING; mkMicroscopeFile "x.dat" 7 WAITING]
    [mkMicroscopeFile "m.mea" 7 WAITING; mkMicroscopeFile "x.dat" 7 WAITING].

Definition sample_files : list string := ["b.tif"; "a.tif"; "n.mea"; "notes.txt"].

End Upload.

(* ================================================================== *)
(** * tmaps/tool/result.py                                             *)
(* ================================================================== *)

Module ToolResult.
Import Py.

(** A discrete label value ([int | str]). *)
Inductive label : Type := LInt (n : Z) | LStr (s : string).

Global Instance label_eq_dec : EqDecision label.
Proof. solve_decision. Defined.

(** The JSON values the constructors put into an [attributes] column. *)
Inductive attr : Type :=
| AInt (n : Z)
| AStr (s : string)
| ALabels (xs : list label)
| AColorMap (m : list (label * string)).

(** Rows of the tables of [result.py]. *)
Record LabelLayer : Type := mkLabelLayer {
  layer_id : Z;
  type : string;
  attributes : gmap string attr;
  mapobject_type_id : Z;
  result_id : option Z
}.

Record LabelLayerLabel : Type := mkLabelLayerLabel {
  label_of : label;
  mapobject_id : Z;
  label_layer_id : Z
}.

Record Result : Type := mkResult {
  result_pk : Z;
  result_name : string;
  tool_session_id : Z
}.

Record Plot : Type := mkPlot {
  plot_type : option string;
  plot_attributes : gmap string attr;
  plot_result_id : option Z
}.

(** What [Result.__init__] reads of its [tool_session] argument. *)
Record ToolSession : Type := mkToolSession {
  tool_session_pk : Z;
  tool_name : string
}.

(** [db.session]: the objects added so far, per table. *)
Record Session : Type := mkSession {
  results : list Result;
  label_layers : list LabelLayer;
  label_layer_labels : list LabelLayerLabel;
  plots : list Plot
}.

Definition empty_session : Session := mkSession [] [] [] [].

(** The primary key [flush] assigns to the next row of a table. *)
Definition next_id {A : Type} (table : list A) : Z := Z.of_nat (length table) + 1.

(** [LabelLayer.__init__]; [cls] is [self.__class__.__name__]. *)
Definition LabelLayer_init (cls : string) (mapobject_type_id : Z) (labels : gmap Z label)
    (extra_attributes : gmap string attr) (db : Session) : LabelLayer * Session :=
  let self :=
    mkLabelLayer (next_id (label_layers db)) cls extra_attributes mapobject_type_id None in
  let label_objs :=
    if bool_decide (labels = ∅) then []
    else map (fun kv => mkLabelLayerLabel kv.2 kv.1 (layer_id self)) (map_to_list labels) in
  (self,
   mkSession (results db) (label_layers db ++ [self])
     (label_layer_labels db ++ label_objs) (plots db)).

(** [list(set(labels.values()))]: the distinct values.  Python lists them
    in the iteration order of the set, which depends on the hashes; this is
    one such listing, and no statement below depends on its order. *)
Definition unique_labels (labels : gmap Z label) : list label :=
  remove_dups (map snd (map_to_list labels)).

(** [ScalarLabelLayer.__init__]. *)
Definition ScalarLabelLayer_init (cls : string) (mapobject_type_id : Z) (labels : gmap Z label)
    (extra_attributes : gmap string attr) (db : Session) : LabelLayer * Session :=
  let extra_attributes :=
    <["unique_labels" := ALabels (unique_labels labels)]> extra_attributes in
  LabelLayer_init cls mapobject_type_id labels extra_attributes db.

(** [SupervisedClassifierLabelLayer.__init__]. *)
Definition SupervisedClassifierLabelLayer_init (cls : string) (mapobject_type_id : Z)
    (labels : gmap Z label) (color_map : list (label * string))
    (extra_attributes : gmap string attr) (db : Session) : LabelLayer * Session :=
  let extra_attributes := <["color_map" := AColorMap color_map]> extra_attributes in
  ScalarLabelLayer_init cls mapobject_type_id labels extra_attributes db.

(** [ContinuousLabelLayer.__init__]. *)
Definition ContinuousLabelLayer_init (cls : string) (mapobject_type_id : Z)
    (labels : gmap Z label) (extra_attributes : gmap string attr) (db : Session)
  : LabelLayer * Session :=
  LabelLayer_init cls mapobject_type_id labels extra_attributes db.

Definition feature_id_required_msg : string :=
  "Heatmap tool requires " +:+ dquote +:+ "feature_id" +:+ dquote +:+ " attribute.".

(** [HeatmapLabelLayer.__init__]. *)
Definition HeatmapLabelLayer_init (mapobject_type_id : Z)
    (extra_attributes : gmap string attr) (db : Session) : result (LabelLayer * Session) :=
  if negb (bool_decide (is_Some (extra_attributes !! "feature_id"))) then
    Raise (ValueError feature_id_required_msg)
  else
    Ok (LabelLayer_init "HeatmapLabelLayer" mapobject_type_id ∅ extra_attributes db).


(** [layer.result_id = self.id] on the layer object, which is the row with
    the layer's primary key. *)
Definition set_result_id (rid : Z) (layer : LabelLayer) (table : list LabelLayer) : list LabelLayer :=
  map (fun l =>
         if Z.eqb (layer_id l) (layer_id layer)
         then mkLabelLayer (layer_id l) (type l) (attributes l) (mapobject_type_id l) (Some rid)
         else l)
      table.

(** [Result.__init__]. *)
Definition Result_init (tool_session : ToolSession) (layer : LabelLayer) (name : option string)
    (new_plots : list Plot) (db : Session) : Result * Session :=
  let name :=
    match name with
    | None => tool_name tool_session +:+ " result"
    | Some n => n
    end in
  let self := mkResult (next_id (results db)) name (tool_session_pk tool_session) in
  (self,
   mkSession (results db ++ [self])
     (set_result_id (result_pk self) layer (label_layers db))
     (label_layer_labels db)
     (plots db ++
      map (fun p => mkPlot (plot_type p) (plot_attributes p) (Some (result_pk self))) new_plots)).

End ToolResult.

(* ================================================================== *)
(** * tmaps/jtui/api.py                                                *)
(* ================================================================== *)

Module Jtui.
Import Py.

(** ** Name resolution *)

(** The objects a name of the module can be bound to. *)
Inductive pyobj : Type :=
| PyModule (name : string)
| PyClass (name : string)
| PyFunction (name : string)
| PyInstance (cls : string)
| PyStr (s : string)
| PyInt (n : Z).

(** The module namespace of [jtui/api.py]: its imports, its two module-level
    assignments and its function definitions. *)
Definition module_namespace : gmap string pyobj :=
  list_to_map
    [("os", PyModule "os"); ("time", PyModule "time"); ("json", PyModule "json");
     ("re", PyModule "re"); ("glob", PyModule "glob"); ("yaml", PyModule "yaml");
     ("logging", PyModule "logging"); ("natsorted", PyFunction "natsorted");
     ("send_file", PyFunction "send_file"); ("jsonify", PyFunction "jsonify");
     ("request", PyInstance "LocalProxy"); ("Blueprint", PyClass "Blueprint");
     ("current_app", PyInstance "LocalProxy"); ("jwt_required", PyFunction "jwt_required");
     ("websocket", PyInstance "GeventWebSocket");
     ("extract_model_from_path", PyFunction "extract_model_from_path");
     ("gc3pie", PyInstance "GC3Pie"); ("db", PyInstance "SQLAlchemy");
     ("tm", PyModule "tmlib.models"); ("Experiment", PyClass "Experiment");
     ("get_step_args", PyFunction "get_step_args"); ("RunJob", PyClass "RunJob");
     ("RunJobCollection", PyClass "RunJobCollection");
     ("cluster_utils", PyModule "tmlib.workflow.utils");
     ("ImageAnalysisPipeline", PyClass "ImageAnalysisPipeline");
     ("configure_logging", PyFunction "configure_logging");
     ("list_projects", PyFunction "list_projects"); ("Project", PyClass "Project");
     ("AvailableModules", PyClass "AvailableModules");
     ("jtui", PyInstance "Blueprint"); ("logger", PyInstance "Logger");
     ("list_module_names", PyFunction "list_module_names");
     ("get_projects", PyFunction "get_projects");
     ("get_available_jtprojects", PyFunction "get_available_jtprojects");
     ("get_jtproject", PyFunction "get_jtproject");
     ("get_available_jtmodules", PyFunction "get_available_jtmodules");
     ("get_available_jtpipelines", PyFunction "get_available_jtpipelines");
     ("get_available_channels", PyFunction "get_available_channels");
     ("get_module_source_code", PyFunction "get_module_source_code");
     ("get_module_figure", PyFunction "get_module_figure");
     ("create_joblist", PyFunction "create_joblist");
     ("save_jtproject", PyFunction "save_jtproject");
     ("check_jtproject", PyFunction "check_jtproject");
     ("remove_jtproject", PyFunction "remove_jtproject");
     ("create_jtproject", PyFunction "create_jtproject");
     ("kill_jobs", PyFunction "kill_jobs"); ("_get_output", PyFunction "_get_output");
     ("get_job_status", PyFunction "get_job_status");
     ("get_job_output", PyFunction "get_job_output");
     ("run_jobs", PyFunction "run_jobs")].

(** The builtins the module's functions name. *)
Definition builtins : gmap string pyobj :=
  list_to_map
    [("int", PyClass "int"); ("str", PyClass "str"); ("list", PyClass "list");
     ("dict", PyClass "dict"); ("map", PyFunction "map"); ("zip", PyFunction "zip");
     ("len", PyFunction "len"); ("open", PyFunction "open");
     ("enumerate", PyFunction "enumerate"); ("isinstance", PyFunction "isinstance");
     ("Exception", PyClass "Exception"); ("IndexError", PyClass "IndexError")].

(** Reading a name inside a function: its locals, then the module
    namespace, then the builtins; otherwise [NameError]. *)
Definition load_name (locals : gmap string pyobj) (name : string) : result pyobj :=
  match locals !! name with
  | Some v => Ok v
  | None =>
      match module_namespace !! name with
      | Some v => Ok v
      | None =>
          match builtins !! name with
          | Some v => Ok v
          | None => Raise (NameError name)
          end
      end
  end.

(** [str(e)] for an exception. *)
Definition exn_str (e : exn) : string :=
  match e with
  | NameError name => "global name '" +:+ name +:+ "' is not defined"
  | KeyError key => "'" +:+ key +:+ "'"
  | AttributeError msg | ValueError msg
  | MalformedRequestError msg | InternalServerError msg => msg
  | IOError path => "No such file or directory: '" +:+ path +:+ "'"
  | SystemExit code => ""
  | MultipleResultsFound => "Multiple rows were found for one_or_none()"
  end.

(** ** [list_module_names] *)

(** An entry of the pipeline description. *)
Record PipelineModule : Type := mkPipelineModule {
  handles : string;
  module : string;
  active : bool
}.

Definition list_module_names (pipeline : list PipelineModule) : list string :=
  map (fun m => (os_path_splitext (os_path_splitext (os_path_basename (handles m))).1).1)
      (List.filter active pipeline).

(** ** [get_available_jtpipelines] and [create_joblist] *)

(** The [jtproject] payload of a request, after [yaml.load]: the keys the
    handlers read; [experiment_id] is [None] when the payload lacks the key. *)
Record JtProject : Type := mkJtProject {
  experiment_id : option Z;
  project_name : string;
  pipe : list PipelineModule
}.

(** A job batch as [create_batches] describes it. *)
Record Batch : Type := mkBatch {
  batch_id : Z;
  image_file_ids : list (list Z)
}.

(** The metadata of a [tm.ChannelImage] row that the job list reports. *)
Record ChannelImage : Type := mkChannelImage {
  channel_image_id : Z;
  tpoint : Z;
  zplane : Z;
  channel : Z;
  well : string;
  plate : string
}.

(** The JSON object [create_joblist] answers with. *)
Record JoblistResponse : Type := mkJoblistResponse {
  joblist : option (gmap Z ChannelImage);
  error : option string
}.

Section Endpoints.

(** [tmlib.workflow.jterator.project.list_projects]. *)
Variable list_projects : string → result (list string).

(** [ImageAnalysisPipeline(experiment_id, verbosity, pipeline).create_batches]
    for whatever object the pipeline argument is. *)
Variable create_batches : Z → pyobj → result (list Batch).

(** Calling the object a name is bound to on the ids of a batch, and reading
    an object as a list of ids. *)
Variable call_on_ids : pyobj → list (list Z) → result (list Z).
Variable as_ids : pyobj → result (list Z).

(** [get_available_jtpipelines]: the value under the ['jtpipelines'] key. *)
Definition get_available_jtpipelines (config : gmap string string) : result (list string) :=
  match config !! "JTUI_REPO_DIR_LOCATION" with
  | None => Raise (AttributeError "'NoneType' object has no attribute 'endswith'")
  | Some location =>
      projects ← list_projects (os_path_join location "pipes");
      let pipes := map os_path_basename projects in
      let pipes : list string := [] in
      Ok pipes
  end.

(** The body of the [for batch in batches] loop of [create_joblist]: the
    metadata entries it writes, in order. *)
Definition batch_metadata (locals : gmap string pyobj) (channel_images : list ChannelImage)
    (batch : Batch) : result (list (Z * ChannelImage)) :=
  flatten ← load_name locals "flatten";
  file_ids ← call_on_ids flatten (image_file_ids batch);
  channel_ids ← load_name locals "channel_ids";
  ids ← as_ids channel_ids;
  let channel_files :=
    List.filter (fun f => bool_decide (channel_image_id f ∈ ids)) channel_images in
  Ok (map (fun f => (batch_id batch, f)) channel_files).

(** [create_joblist]. *)
Definition create_joblist (channel_images : list ChannelImage) (jtproject : JtProject)
  : result JoblistResponse :=
  experiment_id ←
    match experiment_id jtproject with
    | Some i => Ok i
    | None => Raise (KeyError "experiment_id")
    end;
  let locals : gmap string pyobj :=
    {[ "experiment" := PyInstance "Experiment";
       "data" := PyInstance "dict";
       "experiment_id" := PyInt experiment_id ]} in
  _ ← load_name locals "ImageAnalysisPipeline";
  _ ← load_name locals "experiment_id";
  _ ← load_name locals "logging";
  pipeline ← load_name locals "pipeline";
  _ ← load_name locals "get_step_args";
  batches ← create_batches experiment_id pipeline;
  match for_each (batch_metadata locals channel_images) batches with
  | Ok entries =>
      Ok (mkJoblistResponse
            (Some (fold_left (fun m kv => <[kv.1 := kv.2]> m) (concat entries) ∅)) None)
  | Raise e => Ok (mkJoblistResponse None (Some (exn_str e)))
  end.

End Endpoints.

(** ** [_get_output] *)

(** A [RunJob] as [_get_output] reads it. *)
Record RunJob : Type := mkRunJob {
  jobname : string;
  output_dir : string;
  stdout : string;
  stderr : string;
  persistent_id : Z
}.

(** What [iter_tasks] and [iter_workflow] yield. *)
Inductive subtask : Type := IsRunJob (job : RunJob) | OtherSubtask.
Inductive task : Type := IsRunJobCollection (subtasks : list subtask) | OtherTask.

(** The columns of [tm.Task] that [_get_output] reads. *)
Record TaskInfo : Type := mkTaskInfo {
  exitcode : option Z;
  submission_id : Z
}.

(** An element of the ['modules'] list and of the output list. *)
Record ModuleOutput : Type := mkModuleOutput {
  module_name : string;
  module_stdout : option string;
  module_stderr : option string
}.

Record JobOutput : Type := mkJobOutput {
  id : Z;
  submissionId : Z;
  name : string;
  log : string;
  modules : list ModuleOutput;
  failed : bool
}.

(** The pattern of the job-name search (an underscore, group 1 of one or
    more digits, the end) and the pattern [r] of the module-file match
    (group 1 of any characters, taken greedily, then an underscore, one or
    more digits and a dot). *)
Definition jobname_regex : list item :=
  [One (Lit underscore); GroupOpen; Plus Digit; GroupClose; EndAnchor].
Definition module_regex : list item :=
  [GroupOpen; Star AnyChar; GroupClose; One (Lit underscore); Plus Digit; One (Lit dot)].

Definition still_running : string := "-- Job is still running --".

(** [open(path).read() if os.path.exists(path) else '']. *)
Definition read_if_exists (fs : FileSystem) (path : string) : result string :=
  if os_path_exists fs path then read fs path else Ok "".

(** [os.path.join(subtask.output_dir, subtask.stdout)] and its stderr twin. *)
Definition stdout_file (subtask : RunJob) : string :=
  os_path_join (output_dir subtask) (stdout subtask).
Definition stderr_file (subtask : RunJob) : string :=
  os_path_join (output_dir subtask) (stderr subtask).

(** The ['log'] of a job. *)
Definition job_log (fs : FileSystem) (subtask : RunJob) : result string :=
  stdout ← read_if_exists fs (stdout_file subtask);
  stderr ← read_if_exists fs (stderr_file subtask);
  if negb (str_truthy stdout) && negb (str_truthy stderr) then Ok still_running
  else Ok (stdout +:+ String newline EmptyString +:+ stderr).

(** [[re.match(r, os.path.basename(f)).group(1) for f in files]]. *)
Definition module_names_of (files : list string) : result (list string) :=
  for_each (fun f => group (re_match module_regex (os_path_basename f))) files.

(** The body of the inner loop of [_get_output] for one [RunJob]. *)
Definition job_output (fs : FileSystem) (tasks : gmap Z TaskInfo)
    (log_dir figures_dir : string) (module_names : list string) (subtask : RunJob)
  : result JobOutput :=
  digits ← group (re_search jobname_regex (jobname subtask));
  j ← int digits;
  log ← job_log fs subtask;
  let stdout_files := glob_star fs log_dir ("_" +:+ format_05d j +:+ ".out") in
  let stderr_files := glob_star fs log_dir ("_" +:+ format_05d j +:+ ".err") in
  let fig_files := glob_star fs figures_dir ("_" +:+ format_05d j +:+ ".json") in
  module_file ← module_names_of stdout_files;
  stdout_texts ← for_each (read fs) stdout_files;
  let module_stdout := dict_zip module_file stdout_texts in
  stderr_texts ← for_each (read fs) stderr_files;
  let module_stderr := dict_zip module_file stderr_texts in
  fig_names ← module_names_of fig_files;
  let module_output :=
    map (fun m => mkModuleOutput m (module_stdout !! m) (module_stderr !! m)) module_names in
  task_info ←
    match tasks !! persistent_id subtask with
    | Some t => Ok t
    | None => Raise (AttributeError "'NoneType' object has no attribute 'exitcode'")
    end;
  let failed := negb (bool_decide (exitcode task_info = Some 0)) in
  Ok (mkJobOutput j (submission_id task_info) (jobname subtask) log module_output failed).

(** The [RunJob]s the two nested loops visit, in order. *)
Definition run_jobs_of (jobs : list task) : list RunJob :=
  flat_map
    (fun t =>
       match t with
       | IsRunJobCollection subtasks =>
           flat_map (fun st => match st with IsRunJob job => [job] | OtherSubtask => [] end)
                    subtasks
       | OtherTask => []
       end)
    jobs.

(** [_get_output(jobs, log_dir, figures_dir, module_names)]. *)
Definition _get_output (fs : FileSystem) (tasks : gmap Z TaskInfo) (jobs : list task)
    (log_dir figures_dir : string) (module_names : list string) : result (list JobOutput) :=
  for_each (job_output fs tasks log_dir figures_dir module_names) (run_jobs_of jobs).

(** ** Sample data *)

(** A file system given by directory listings and file contents. *)
Definition assoc {V : Type} (k : string) (l : list (string * V)) : option V :=
  snd <$> List.find (fun e => String.eqb e.1 k) l.

Definition fs_of (dirs : list (string * list string)) (files : list (string * string))
  : FileSystem :=
  mkFileSystem (fun d => default [] (assoc d dirs)) (fun p => assoc p files).

(** Job 1 of a run with the modules [align] and [segment]. *)
Definition sample_job : RunJob := mkRunJob "jtui_run_000001" "/out" "job.out" "job.err" 42.

Definition sample_jobs : list task :=
  [OtherTask; IsRunJobCollection [OtherSubtask; IsRunJob sample_job]].

Definition sample_tasks : gmap Z TaskInfo := {[ 42 := mkTaskInfo (Some 1) 9 ]}.

Definition sample_files : list (string * string) :=
  [("/log/align_00001.out", "align out"); ("/log/align_00001.err", "align err");
   ("/log/segment_00001.out", "segment out"); ("/log/segment_00001.err", "segment err");
   ("/fig/align_00001.json", "{}"); ("/out/job.out", "done")].

(** Both modules wrote both log files; the directory lists them pairwise. *)
Definition paired_fs : FileSystem :=
  fs_of
    [("/log", ["align_00001.out"; "align_00001.err";
               "segment_00001.out"; "segment_00001.err"]);
     ("/fig", ["align_00001.json"])]
    sample_files.

(** The same files, listed by the directory in another order. *)
Definition shuffled_fs : FileSystem :=
  fs_of
    [("/log", ["align_00001.out"; "segment_00001.err";
               "align_00001.err"; "segment_00001.out"]);
     ("/fig", ["align_00001.json"])]
    sample_files.

(** Module [align] wrote no stderr file. *)
Definition partial_fs : FileSystem :=
  fs_of
    [("/log", ["align_00001.out"; "segment_00001.out"; "segment_00001.err"]);
     ("/fig", [])]
    [("/log/align_00001.out", "align out");
     ("/log/segment_00001.out", "segment out"); ("/log/segment_00001.err", "segment err")].

(** The stdout file is missing, the stderr file exists and is empty. *)
Definition empty_stderr_fs : FileSystem :=
  fs_of [] [("/out/job.err", "")].

Definition sample_pipeline : list PipelineModule :=
  [mkPipelineModule "handles/align.handles.yaml" "align.py" true;
   mkPipelineModule "handles/smooth.handles.yaml" "smooth.py" false;
   mkPipelineModule "handles/segment.handles.yaml" "segment.py" true].

End Jtui.

(* ================================================================== *)
(** * tmserver/experiment/upload.py: the validity check                *)
(* ================================================================== *)

Module UploadValidity.
Import Py Upload.

(** The ['files'] value of the validity-check body: absent, not a list, or
    a list of entries, each with its ['name'] ([None] when an entry has no
    such key). *)
Inductive files_param : Type :=
| NoFilesKey
| FilesNotAList
| FilesList (entries : list (option string)).

Section Handlers.

Variable get_microscope_type_regex : string → (string → bool) * (string → bool).

(** The message of a [MalformedRequestError()] raised without one. *)
Variable default_message : string.

(** The inner [check_file(fname)]. *)
Definition check_file (imgfile_regex metadata_regex : string → bool) (fname : string) : bool :=
  let is_imgfile := imgfile_regex fname in
  let is_metadata_file := metadata_regex fname in
  is_metadata_file || is_imgfile.

(** [file_validity_check]: the value under the ['is_valid'] key. *)
Definition file_validity_check (db : ExperimentDb) (files : files_param) : result (list bool) :=
  match files with
  | NoFilesKey => Raise (MalformedRequestError default_message)
  | FilesNotAList => Raise (MalformedRequestError "No image files provided.")
  | FilesList entries =>
      let '(imgfile_regex, metadata_regex) := get_microscope_type_regex (microscope_type db) in
      for_each
        (fun f =>
           match f with
           | Some fname => Ok (check_file imgfile_regex metadata_regex fname)
           | None => Raise (KeyError "name")
           end)
        entries
  end.

End Handlers.

(** The names a client keeps after a validity check: those flagged valid. *)
Definition flagged (files : list string) (is_valid : list bool) : list string :=
  map fst (List.filter snd (zip files is_valid)).

(** Two rows of a table that differ at most in their upload status. *)
Definition same_record (f g : MicroscopeFile) : Prop :=
  name f = name g ∧ file_acquisition_id f = file_acquisition_id g.

End UploadValidity.

(* ================================================================== *)
(** * tmaps/tool/result.py: reading labels back                        *)
(* ================================================================== *)

Module LabelQueries.
Import Py ToolResult.

(** [dict(rows)] for a list of pairs: a later pair overrides an earlier one
    with the same key. *)
Definition dict {K V : Type} `{Countable K} (rows : list (K * V)) : gmap K V :=
  fold_left (fun m kv => <[kv.1 := kv.2]> m) rows ∅.

Section Queries.

(** The values of the [feature_values] table of tmlib. *)
Variable value : Type.

(** The query on [FeatureValue] of [get_labels_for_objects], for the value
    of [attributes['feature_id']] and the selected mapobject ids: the
    [(mapobject_id, value)] rows of [.all()], or the exception of the
    database. *)
Variable feature_values_query : attr → list Z → result (list (Z * value)).

(** The dictionary [get_labels_for_objects] returns: feature values for a
    heatmap layer, stored labels for any other layer. *)
Inductive labels_for_objects : Type :=
| FeatureValues (values : gmap Z value)
| Labels (labels : gmap Z label).

(** [LabelLayer.get_labels_for_objects]. *)
Definition get_labels_for_objects (self : LabelLayer) (mapobject_ids : list Z) (db : Session)
  : result labels_for_objects :=
  if String.eqb (type self) "HeatmapLabelLayer" then
    match attributes self !! "feature_id" with
    | None => Raise (KeyError "feature_id")
    | Some feature_id =>
        rows ← feature_values_query feature_id mapobject_ids;
        Ok (FeatureValues (dict rows))
    end
  else
    Ok (Labels
          (dict
             (map (fun r => (mapobject_id r, label_of r))
                  (List.filter
                     (fun r => bool_decide (mapobject_id r ∈ mapobject_ids)
                               && Z.eqb (label_layer_id r) (layer_id self))
                     (label_layer_labels db))))).

End Queries.

Arguments FeatureValues {value} values.
Arguments Labels {value} labels.

(** Referential integrity of a session: primary keys are the ones [flush]
    assigned, and every foreign key (a label row's layer, a layer's result, a
    plot's result) refers to a row that exists. *)
Definition session_wf (db : Session) : Prop :=
  (∀ i l, label_layers db !! i = Some l → layer_id l = Z.of_nat i + 1) ∧
  (∀ i r, results db !! i = Some r → result_pk r = Z.of_nat i + 1) ∧
  (∀ r, r ∈ label_layer_labels db →
        ∃ l, l ∈ label_layers db ∧ layer_id l = label_layer_id r) ∧
  (∀ l rid, l ∈ label_layers db → result_id l = Some rid →
            ∃ r, r ∈ results db ∧ result_pk r = rid) ∧
  (∀ p rid, p ∈ plots db → plot_result_id p = Some rid →
            ∃ r, r ∈ results db ∧ result_pk r = rid).

(** Sample data: a feature value table with one value, for mapobject 1 and
    feature 3, and labels for two mapobjects. *)
Definition sample_query (feature_id : attr) (ids : list Z) : result (list (Z * Z)) :=
  match feature_id with
  | AInt 3 => Ok (List.filter (fun row => bool_decide (row.1 ∈ ids)) [(1, 40)])
  | _ => Ok []
  end.

Definition sample_labels : gmap Z label := {[ 1 := LInt 5; 2 := LInt 6 ]}.

End LabelQueries.

(* ================================================================== *)
(** * tmaps/jtui/api.py: projects, module sources and job killing      *)
(* ================================================================== *)

Module JtuiRequests.
Import Py Jtui.

(** ** Request bodies *)

(** A value of [json.loads]; a finite float is [mantissa * 2 ^ exponent]. *)
#[warnings="-register-all"]
Inductive json : Type :=
| JNull
| JBool (b : bool)
| JInt (n : Z)
| JFloat (mantissa exponent : Z)
| JNaN
| JInfinity (negative : bool)
| JStr (s : string)
| JList (xs : list json)
| JDict (items : list (string * json)).

(** The truth value of a JSON value in an [if]. *)
Definition truthy (v : json) : bool :=
  match v with
  | JNull => false
  | JBool b => b
  | JInt n => negb (Z.eqb n 0)
  | JFloat mantissa _ => negb (Z.eqb mantissa 0)
  | JNaN | JInfinity _ => true
  | JStr s => str_truthy s
  | JList xs => negb (Nat.eqb (length xs) 0)
  | JDict items => negb (Nat.eqb (length items) 0)
  end.

(** What a handler raises: an exception of [Py] or one of three more
    builtin ones. *)
Inductive raised : Type :=
| Exn (e : exn)
| IndexError
| TypeError
| OverflowError.

Inductive outcome (A : Type) : Type :=
| Returns (a : A)
| Raises (e : raised).
Arguments Returns {A} a.
Arguments Raises {A} e.

(** [data[key]] for a string key: only an object can be subscripted so, and
    of pairs with the same key [json.loads] keeps the last. *)
Definition subscript (data : json) (key : string) : outcome json :=
  match data with
  | JDict items =>
      match List.find (fun kv => String.eqb kv.1 key) (rev items) with
      | Some kv => Returns kv.2
      | None => Raises (Exn (KeyError key))
      end
  | _ => Raises TypeError
  end.

(** ['%d' % n] for an integer. *)
Definition format_d (n : Z) : string := NilZero.string_of_int (Z.to_int n).

(** ['%d' % v]: booleans and numbers are formatted, a float after
    truncation towards zero; anything else is refused. *)
Definition percent_d (v : json) : outcome string :=
  match v with
  | JBool b => Returns (format_d (if b then 1 else 0))
  | JInt n => Returns (format_d n)
  | JFloat mantissa exponent =>
      Returns (format_d (if 0 <=? exponent then mantissa * 2 ^ exponent
                         else Z.quot mantissa (2 ^ (- exponent))))
  | JNaN => Raises (Exn (ValueError "cannot convert float NaN to integer"))
  | JInfinity _ => Raises OverflowError
  | JNull | JStr _ | JList _ | JDict _ => Raises TypeError
  end.

(** Whether [except Exception] catches the exception. *)
Definition is_Exception (e : exn) : bool :=
  match e with
  | SystemExit _ => false
  | _ => true
  end.

(** ** [get_projects] and [get_available_jtprojects] *)

(** The pattern of [get_projects]: the literal [jterator_], then group 1 of
    any characters, taken greedily. *)
Definition project_regex : list item :=
  map (fun c => One (Lit c)) (chars "jterator_") ++ [GroupOpen; Star AnyChar; GroupClose].

Section Projects.

(** [tmlib.workflow.jterator.project.list_projects]. *)
Variable list_projects : string → result (list string).

(** The class [Project] of tmlib: its constructor and
    [yaml.safe_dump(dict(proj))]. *)
Variable project : Type.
Variable Project : string → string → result project.
Variable safe_dump : project → result string.

(** [ImageAnalysisPipeline(experiment_id, verbosity, pipeline).step_location]
    for whatever object the pipeline argument is. *)
Variable step_location : Z → pyobj → result string.

(** [get_projects]. *)
Definition get_projects (location : string) : result (list project) :=
  project_dirs ← list_projects location;
  for_each
    (fun proj_dir =>
       pipeline ← group (re_search project_regex proj_dir);
       Project proj_dir pipeline)
    project_dirs.

(** [get_available_jtprojects]: the value under the ['jtprojects'] key. *)
Definition get_available_jtprojects (experiment_id : Z) : result (list string) :=
  let locals : gmap string pyobj := {[ "experiment" := PyInstance "Experiment" ]} in
  _ ← load_name locals "ImageAnalysisPipeline";
  _ ← load_name locals "experiment";
  _ ← load_name locals "logging";
  pipeline ← load_name locals "pipeline";
  location ← step_location experiment_id pipeline;
  _ ← load_name locals "get_projects";
  projects ← get_projects location;
  for_each safe_dump projects.

End Projects.

(** ** [get_module_source_code] *)

(** [get_module_source_code] for the [module_files] of the available
    modules: the path handed to [send_file]. *)
Definition get_module_source_code (module_files : list string) (module_filename : string)
  : outcome string :=
  let files :=
    List.filter (fun f => String.eqb (os_path_basename f) module_filename) module_files in
  match files with
  | f :: _ => Returns f
  | [] => Raises IndexError
  end.

(** ** [kill_jobs] *)

(** The JSON object [kill_jobs] answers with. *)
Record KillResponse : Type := mkKillResponse {
  success : bool;
  kill_error : option string
}.

Section KillJobs.

(** The state of the job engine, [tasks[persistent_id]] and
    [engine.kill(task)] for whatever objects the names are bound to. *)
Variable engine_state : Type.
Variable getitem : pyobj → json → result pyobj.
Variable kill : pyobj → pyobj → engine_state → result unit * engine_state.

(** The [try] block of [kill_jobs]. *)
Definition kill_task (locals : gmap string pyobj) (persistent_id : json) (st : engine_state)
  : result unit * engine_state :=
  match load_name locals "tasks" with
  | Raise e => (Raise e, st)
  | Ok tasks =>
      match getitem tasks persistent_id with
      | Raise e => (Raise e, st)
      | Ok task =>
          match load_name locals "logger" with
          | Raise e => (Raise e, st)
          | Ok _ =>
              match load_name locals "engine" with
              | Raise e => (Raise e, st)
              | Ok engine => kill engine task st
              end
          end
      end
  end.

(** [kill_jobs] on the parsed request body: the answer (or exception) and
    the engine afterwards. *)
Definition kill_jobs (data : json) (st : engine_state) : outcome KillResponse * engine_state :=
  match subscript data "taskId" with
  | Raises e => (Raises e, st)
  | Returns persistent_id =>
      if truthy persistent_id then
        let locals : gmap string pyobj :=
          {[ "data" := PyInstance "dict"; "persistent_id" := PyInstance "object" ]} in
        match kill_task locals persistent_id st with
        | (Ok _, st') => (Returns (mkKillResponse true None), st')
        | (Raise e, st') =>
            if is_Exception e then
              let error := exn_str e in
              match percent_d persistent_id with
              | Returns _ => (Returns (mkKillResponse false (Some error)), st')
              | Raises e' => (Raises e', st')
              end
            else (Raises (Exn e), st')
        end
      else (Returns (mkKillResponse false (Some "No jobs were specified.")), st)
  end.

End KillJobs.

End JtuiRequests.

(* ================================================================== *)
(** * tmaps/tool/result.py: the attribute dicts as objects             *)
(* ================================================================== *)

Module LayerObjects.
Import Py ToolResult.

(** Python [dict] objects, by identity, and the store that holds their
    current content. *)
Definition ref : Type := nat.
Definition heap : Type := gmap ref (gmap string attr).

(** The dicts made once, when the [def] statements run: the default values
    of the [extra_attributes] parameters. *)
Definition LabelLayer_default : ref := 0%nat.
Definition ScalarLabelLayer_default : ref := 1%nat.
Definition SupervisedClassifierLabelLayer_default : ref := 2%nat.
Definition ContinuousLabelLayer_default : ref := 3%nat.

Definition initial_heap : heap :=
  {[ LabelLayer_default := ∅; ScalarLabelLayer_default := ∅;
     SupervisedClassifierLabelLayer_default := ∅; ContinuousLabelLayer_default := ∅ ]}.

(** The content of a dict object. *)
Definition deref (h : heap) (r : ref) : gmap string attr := default ∅ (h !! r).

(** A layer object in memory: the key [flush] gave it and the dict its
    [attributes] attribute refers to. *)
Record LayerObject : Type := mkLayerObject {
  object_id : Z;
  attributes_ref : ref
}.

(** [LabelLayer.__init__] on dict objects: [self.attributes] is bound to the
    dict passed (or to the default one), and [flush] writes the row with the
    content the dict has at that moment. *)
Definition LabelLayer_new (cls : string) (mapobject_type_id : Z) (labels : gmap Z label)
    (extra_attributes : option ref) (st : heap * Session) : LayerObject * (heap * Session) :=
  let r := default LabelLayer_default extra_attributes in
  let out := LabelLayer_init cls mapobject_type_id labels (deref st.1 r) st.2 in
  (mkLayerObject (layer_id out.1) r, (st.1, out.2)).

(** [ScalarLabelLayer.__init__]: [extra_attributes.update(...)] writes into
    the dict object before it is handed on. *)
Definition ScalarLabelLayer_new (cls : string) (mapobject_type_id : Z) (labels : gmap Z label)
    (extra_attributes : option ref) (st : heap * Session) : LayerObject * (heap * Session) :=
  let r := default ScalarLabelLayer_default extra_attributes in
  let h := <[r := <["unique_labels" := ALabels (unique_labels labels)]> (deref st.1 r)]> st.1 in
  LabelLayer_new cls mapobject_type_id labels (Some r) (h, st.2).

(** [SupervisedClassifierLabelLayer.__init__]. *)
Definition SupervisedClassifierLabelLayer_new (cls : string) (mapobject_type_id : Z)
    (labels : gmap Z label) (color_map : list (label * string))
    (extra_attributes : option ref) (st : heap * Session) : LayerObject * (heap * Session) :=
  let r := default SupervisedClassifierLabelLayer_default extra_attributes in
  let h := <[r := <["color_map" := AColorMap color_map]> (deref st.1 r)]> st.1 in
  ScalarLabelLayer_new cls mapobject_type_id labels (Some r) (h, st.2).

(** [ContinuousLabelLayer.__init__]. *)
Definition ContinuousLabelLayer_new (cls : string) (mapobject_type_id : Z)
    (labels : gmap Z label) (extra_attributes : option ref) (st : heap * Session)
  : LayerObject * (heap * Session) :=
  let r := default ContinuousLabelLayer_default extra_attributes in
  LabelLayer_new cls mapobject_type_id labels (Some r) st.

(** [obj.attributes] read through the object, and the row of the object in
    the session. *)
Definition object_attributes (st : heap * Session) (obj : LayerObject) : gmap string attr :=
  deref st.1 (attributes_ref obj).

Definition row_of (st : heap * Session) (obj : LayerObject) : option LabelLayer :=
  List.find (fun l => Z.eqb (layer_id l) (object_id obj)) (label_layers st.2).

End LayerObjects.

(* ================================================================== *)
(** * tmaps/tool/result.py: what the constructors store                *)
(* ================================================================== *)

Module ConstructorContract.
Import Py ToolResult LabelQueries.








End ConstructorContract.

(* ================================================================== *)
(** * Startup recovery: proofs                                         *)
(* ================================================================== *)

Section AppfactoryProofs.
Import Py Appfactory.

Lemma str_in_spec (x : string) (xs : list string) :
  str_in x xs = true ↔ x ∈ xs.
Proof. unfold str_in. apply bool_decide_eq_true. Qed.

Lemma not_finished_spec (state : option string) :
  not_in_ state finished_states = true ↔
  ∃ s, state = Some s ∧ s ≠ "STOPPED" ∧ s ≠ "TERMINATED" ∧ s ≠ "TERMINATING".
Proof.
  destruct state as [s|]; simpl.
  - rewrite negb_true_iff, <- not_true_iff_false, str_in_spec.
    unfold finished_states. rewrite !elem_of_cons, elem_of_nil. split.
    + intros H. exists s. tauto.
    + intros (s' & [= <-] & H). tauto.
  - split; [discriminate|]. by intros (s & H & _).
Qed.

Lemma in__spec (db : MainDb) (tid : Z) :
  in_ tid (map top_task_id (submissions db)) = true ↔ is_top_task db tid.
Proof.
  unfold in_, is_top_task. rewrite bool_decide_eq_true, list_elem_of_fmap.
  split; intros (s & H1 & H2); exists s; auto.
Qed.

Lemma get_interrupted_tasks_spec (db : MainDb) (tid : Z) :
  tid ∈ get_interrupted_tasks db ↔ interrupted_in_state db tid.
Proof.
  unfold get_interrupted_tasks, interrupted_in_state.
  rewrite list_elem_of_fmap. split.
  - intros (t & -> & Ht). apply list_elem_of_In, filter_In in Ht.
    destruct Ht as [Hin Hc]. apply andb_true_iff in Hc as [Hc1 Hc2].
    apply in__spec in Hc1. apply not_finished_spec in Hc2 as (s & Hs & Hst).
    exists t, s. rewrite list_elem_of_In. tauto.
  - intros (t & s & Hin & <- & Htop & Hs & Hst). exists t. split; [done|].
    apply list_elem_of_In, filter_In. split; [by apply list_elem_of_In|].
    apply andb_true_iff. split; [by apply in__spec|].
    apply not_finished_spec. by exists s.
Qed.

Lemma get_interrupted_tasks_NoDup (db : MainDb) :
  NoDup (map task_id (tasks db)) → NoDup (get_interrupted_tasks db).
Proof.
  unfold get_interrupted_tasks. generalize (tasks db) as l.
  induction l as [|t l IH]; simpl; intros Hnd; [constructor|].
  apply NoDup_cons in Hnd as [Hnotin Hnd].
  destruct (_ && _); simpl; [|by apply IH].
  apply NoDup_cons. split; [|by apply IH].
  intros Hin. apply Hnotin.
  apply list_elem_of_fmap in Hin as (t' & Heq & Hin).
  apply list_elem_of_fmap. exists t'. split; [done|].
  apply list_elem_of_In. apply list_elem_of_In, filter_In in Hin. tauto.
Qed.

Lemma fold_restart_task (tids : list Z) (trace : list gc3pie_call) :
  fold_left restart_task tids trace =
  trace ++ flat_map (fun tid => [retrieve_task tid; continue_task tid]) tids.
Proof.
  revert trace. induction tids as [|tid tids IH]; intros trace; simpl.
  - by rewrite app_nil_r.
  - rewrite IH. unfold restart_task. by rewrite <- app_assoc.
Qed.

Lemma continue_count_flat_map (tid : Z) (tids : list Z) :
  continue_count tid
    (flat_map (fun t => [retrieve_task t; continue_task t]) tids) =
  length (List.filter (fun t => Z.eqb t tid) tids).
Proof.
  unfold continue_count. induction tids as [|t tids IH]; simpl; [done|].
  destruct (Z.eqb t tid); simpl; by rewrite IH.
Qed.

Lemma filter_eqb_NoDup (tid : Z) (tids : list Z) :
  NoDup tids →
  length (List.filter (fun t => Z.eqb t tid) tids) =
  if bool_decide (tid ∈ tids) then 1%nat else 0%nat.
Proof.
  induction 1 as [|t tids Hnotin Hnd IH]; simpl; [done|].
  destruct (Z.eqb_spec t tid) as [->|Hne]; simpl.
  - rewrite bool_decide_eq_true_2 by apply list_elem_of_here.
    rewrite IH, bool_decide_eq_false_2; done.
  - rewrite IH. apply (f_equal (λ b : bool, if b then 1%nat else 0%nat)).
    apply bool_decide_ext. rewrite elem_of_cons.
    split; [by right | intros [Heq|Hin]; [congruence|done]].
Qed.

Lemma create_app_trace (cfg : ServerConfig) (db : MainDb) :
  str_truthy (secret_key cfg) = true →
  create_app cfg db =
  Ok (flat_map (fun t => [retrieve_task t; continue_task t])
        (get_interrupted_tasks db)).
Proof.
  intros Hkey. unfold create_app. rewrite Hkey. simpl.
  rewrite fold_restart_task. simpl. by destruct (String.eqb _ _).
Qed.

(** C1 (as stated, refuted): a top-level task whose state is NULL is in none
    of the three states, yet [get_interrupted_tasks] does not return it and
    [create_app] never calls [continue_task] on it: the query's [NOT IN] is
    not true on a NULL state. *)
Lemma get_interrupted_tasks_skips_null_state_counterexample :
  ¬ (∀ db, NoDup (map task_id (tasks db)) →
           ∀ tid, tid ∈ get_interrupted_tasks db ↔ interrupted db tid) ∧
  (interrupted null_state_db 1 ∧
   get_interrupted_tasks null_state_db = [2] ∧
   ∃ trace, create_app sample_cfg null_state_db = Ok trace ∧
            continue_count 1 trace = 0%nat).
Proof.
  assert (Hint : interrupted null_state_db 1).
  { exists (mkTask 1 None). split; [apply list_elem_of_here|]. split; [done|].
    split; [|done]. exists (mkSubmission 10 (Some 1)).
    split; [apply list_elem_of_here|done]. }
  split; [|split; [exact Hint|split; [reflexivity|]]].
  - intros H. specialize (H null_state_db).
    assert (Hnd : NoDup (map task_id (tasks null_state_db))).
    { apply (bool_decide_unpack _). vm_compute. reflexivity. }
    apply (H Hnd 1) in Hint. vm_compute in Hint.
    apply list_elem_of_singleton in Hint. discriminate.
  - eexists. split; [reflexivity|]. reflexivity.
Qed.

(** C1 (amended): with task ids a primary key and a usable secret key,
    [get_interrupted_tasks] returns precisely the ids of the tasks that are
    the top-level task of some submission and whose state is set and is none
    of STOPPED, TERMINATED, TERMINATING; [create_app] then starts, and its
    engine trace calls [continue_task] exactly once on every returned id and
    never on any other task. *)
Theorem create_app_resubmits_tasks_in_unfinished_state (cfg : ServerConfig) (db : MainDb) :
  NoDup (map task_id (tasks db)) →
  str_truthy (secret_key cfg) = true →
  (∀ tid, tid ∈ get_interrupted_tasks db ↔ interrupted_in_state db tid) ∧
  ∃ trace, create_app cfg db = Ok trace ∧
    ∀ tid, continue_count tid trace =
           if bool_decide (tid ∈ get_interrupted_tasks db) then 1%nat else 0%nat.
Proof.
  intros Hpk Hkey. split; [apply get_interrupted_tasks_spec|].
  eexists. split; [by apply create_app_trace|].
  intros tid. rewrite continue_count_flat_map.
  by apply filter_eqb_NoDup, get_interrupted_tasks_NoDup.
Qed.

Lemma create_app_resubmits_tasks_in_unfinished_state_witness :
  get_interrupted_tasks sample_db = [1; 4] ∧
  (∀ tid, tid ∈ get_interrupted_tasks sample_db ↔ interrupted_in_state sample_db tid) ∧
  ∃ trace, create_app sample_cfg sample_db = Ok trace ∧
    ∀ tid, continue_count tid trace =
           if bool_decide (tid ∈ get_interrupted_tasks sample_db)
           then 1%nat else 0%nat.
Proof.
  split; [reflexivity|].
  apply (create_app_resubmits_tasks_in_unfinished_state sample_cfg sample_db).
  - apply (bool_decide_unpack _). vm_compute. reflexivity.
  - reflexivity.
Defined.

End AppfactoryProofs.

(* ================================================================== *)
(** * Upload handlers: proofs                                          *)
(* ================================================================== *)

Section UploadProofs.
Import Py Upload.

Variable get_microscope_type_regex : string → (string → bool) * (string → bool).
Variable secure_filename : string → string.

Lemma get_acquisition_pk (db : ExperimentDb) (aid : Z) (acq : Acquisition) :
  get_acquisition db aid = Some acq → acquisition_pk acq = aid.
Proof.
  unfold get_acquisition. intros H. apply find_some in H as [_ H].
  by apply Z.eqb_eq.
Qed.

Lemma filter_by_app (fn : string) (aid : Z) (t1 t2 : list MicroscopeFile) :
  filter_by fn aid (t1 ++ t2) = filter_by fn aid t1 ++ filter_by fn aid t2.
Proof. unfold filter_by. apply List.filter_app. Qed.

(** A name that is registered for the acquisition is never among the new
    records of [register_upload]. *)
Lemma new_files_skip_registered (regex : string → bool) (registered : list string)
    (acq : Acquisition) (files : list string) (n : string) (aid : Z) :
  n ∈ registered →
  filter_by n aid (new_files secure_filename regex registered acq files) = [].
Proof.
  intros Hreg. unfold new_files.
  induction files as [|f files IH]; simpl; [done|].
  destruct (regex f && negb (str_in (secure_filename f) registered)) eqn:Hc;
    simpl; [|exact IH].
  apply andb_true_iff in Hc as [_ Hc].
  apply negb_true_iff in Hc.
  destruct (String.eqb_spec (secure_filename f) n) as [Heq|Hne]; simpl.
  - subst n. apply str_in_spec in Hreg. congruence.
  - exact IH.
Qed.

Lemma to_register_dec (regex : string → bool) (registered : list string) (f : string) :
  regex f && negb (str_in (secure_filename f) registered) = true ↔
  to_register secure_filename regex registered f.
Proof.
  unfold to_register.
  rewrite andb_true_iff, negb_true_iff, <- not_true_iff_false, str_in_spec.
  tauto.
Qed.

(** C8: a request with an empty [files] list raises [MalformedRequestError]
    and leaves the database as it was.  A request with a non-empty list for
    an existing acquisition answers [ok] and appends, to the image table
    (respectively the metadata table), one record per submitted name that
    matches the image (respectively metadata) pattern and whose sanitized
    name is not among the names registered for the acquisition, and no other
    record; the number of rows carrying an already registered name does not
    change. *)
Theorem register_upload_registers_unregistered_matches
    (db : ExperimentDb) (aid : Z) (files : list string) :
  (files = [] →
   register_upload get_microscope_type_regex secure_filename db aid files =
   (Raise (MalformedRequestError "No files supplied. Cannot register upload."), db)) ∧
  (files ≠ [] → ∀ acq, get_acquisition db aid = Some acq →
   let regex := get_microscope_type_regex (microscope_type db) in
   let img_filenames := map name (files_of acq (image_table db)) in
   let meta_filenames := map name (files_of acq (metadata_table db)) in
   ∃ (is_new_img is_new_meta : string → bool) (db' : ExperimentDb),
     register_upload get_microscope_type_regex secure_filename db aid files = (Ok "ok", db') ∧
     (∀ f, is_new_img f = true ↔ to_register secure_filename regex.1 img_filenames f) ∧
     (∀ f, is_new_meta f = true ↔ to_register secure_filename regex.2 meta_filenames f) ∧
     image_table db' = image_table db ++
       map (λ f, mkMicroscopeFile (secure_filename f) aid WAITING)
           (List.filter is_new_img files) ∧
     metadata_table db' = metadata_table db ++
       map (λ f, mkMicroscopeFile (secure_filename f) aid WAITING)
           (List.filter is_new_meta files) ∧
     (∀ n, n ∈ img_filenames →
           registrations n aid (image_table db') = registrations n aid (image_table db)) ∧
     (∀ n, n ∈ meta_filenames →
           registrations n aid (metadata_table db') = registrations n aid (metadata_table db))).
Proof.
  split.
  - intros ->. reflexivity.
  - intros Hne acq Hacq regex img_filenames meta_filenames.
    pose proof (get_acquisition_pk _ _ _ Hacq) as Hpk.
    unfold register_upload. rewrite Hacq.
    destruct files as [|f0 files0]; [done|]. cbn [length Nat.eqb].
    subst regex. destruct (get_microscope_type_regex (microscope_type db))
      as [imgfile_regex metadata_regex]. cbn [fst snd].
    exists (λ f, imgfile_regex f && negb (str_in (secure_filename f) img_filenames)),
           (λ f, metadata_regex f && negb (str_in (secure_filename f) meta_filenames)).
    eexists. split; [reflexivity|]. cbn [image_table metadata_table].
    split; [intros f; apply to_register_dec|].
    split; [intros f; apply to_register_dec|].
    split; [unfold new_files; by rewrite Hpk|].
    split; [unfold new_files; by rewrite Hpk|].
    split; intros n Hn; unfold registrations;
      rewrite filter_by_app, length_app, new_files_skip_registered by done;
      simpl; lia.
Qed.

Lemma select_file_obj_cases (imgfile metafile : option MicroscopeFile) (fn : string) :
  select_file_obj imgfile metafile fn =
  match imgfile, metafile with
  | Some f, _ => Ok (ImageFile, f)
  | None, Some f => Ok (MetadataFile, f)
  | None, None => Raise (MalformedRequestError (not_registered_msg fn))
  end.
Proof. by destruct imgfile, metafile. Qed.





End UploadProofs.

Section UploadWitnesses.
Import Py Upload.

Lemma register_upload_registers_unregistered_matches_witness :
  let regex := sample_regex (microscope_type sample_db) in
  let img_filenames := map name (files_of (mkAcquisition 7 WAITING) (image_table sample_db)) in
  let meta_filenames := map name (files_of (mkAcquisition 7 WAITING) (metadata_table sample_db)) in
  ∃ (is_new_img is_new_meta : string → bool) (db' : ExperimentDb),
    register_upload sample_regex id sample_db 7 sample_files = (Ok "ok", db') ∧
    (∀ f, is_new_img f = true ↔ to_register id regex.1 img_filenames f) ∧
    (∀ f, is_new_meta f = true ↔ to_register id regex.2 meta_filenames f) ∧
    image_table db' = image_table sample_db ++
      map (λ f, mkMicroscopeFile (id f) 7 WAITING) (List.filter is_new_img sample_files) ∧
    metadata_table db' = metadata_table sample_db ++
      map (λ f, mkMicroscopeFile (id f) 7 WAITING) (List.filter is_new_meta sample_files) ∧
    (∀ n, n ∈ img_filenames →
          registrations n 7 (image_table db') = registrations n 7 (image_table sample_db)) ∧
    (∀ n, n ∈ meta_filenames →
          registrations n 7 (metadata_table db') = registrations n 7 (metadata_table sample_db)).
Proof.
  apply (proj2 (register_upload_registers_unregistered_matches
                  sample_regex id sample_db 7 sample_files)).
  - discriminate.
  - reflexivity.
Defined.


End UploadWitnesses.

(* ================================================================== *)
(** * ORM entity constructors: proofs                                  *)
(* ================================================================== *)

Section ToolResultProofs.
Import Py ToolResult.



End ToolResultProofs.

(* ================================================================== *)
(** * Python runtime: proofs                                           *)
(* ================================================================== *)

Section PyProofs.
Import Py.

Lemma chars_app (a b : string) : chars (a +:+ b) = chars a ++ chars b.
Proof.
  unfold chars. induction a as [|c a IH]; [done|].
  change (list_ascii_of_string (String c (a +:+ b)) =
          c :: list_ascii_of_string a ++ list_ascii_of_string b).
  simpl. by rewrite IH.
Qed.

Lemma chars_str (l : list ascii) : chars (str l) = l.
Proof. apply list_ascii_of_string_of_list_ascii. Qed.

Lemma str_chars (s : string) : str (chars s) = s.
Proof. apply string_of_list_ascii_of_string. Qed.

(** *** Greedy repetition *)

(** A run of matching characters is taken whole when the rest then matches. *)
Lemma star_app (a : atom) (k : list ascii → nat → span → option span)
    (p rest : list ascii) (pos : nat) (g r : span) :
  Forall (λ c, atom_matches a c = true) p →
  star a k rest (pos + length p) g = Some r →
  star a k (p ++ rest) pos g = Some r.
Proof.
  intros Hp. revert pos. induction Hp as [|c p Hc Hp IH]; intros pos Hrest; simpl in *.
  - by rewrite Nat.add_0_r in Hrest.
  - rewrite Hc, IH; [done|]. by replace (S pos + length p)%nat with (pos + S (length p))%nat by lia.
Qed.

(** The repetition fails when the continuation fails after every run of
    matching characters. *)
Lemma star_None (a : atom) (k : list ascii → nat → span → option span)
    (s : list ascii) (pos : nat) (g : span) :
  (∀ n, (n ≤ length s)%nat → Forall (λ c, atom_matches a c = true) (take n s) →
        k (drop n s) (pos + n)%nat g = None) →
  star a k s pos g = None.
Proof.
  revert pos. induction s as [|c s IH]; intros pos H; simpl.
  - specialize (H 0%nat). rewrite Nat.add_0_r in H. apply H; [simpl; lia | constructor].
  - assert (H0 : k (c :: s) pos g = None).
    { specialize (H 0%nat). rewrite Nat.add_0_r in H. apply H; [lia | constructor]. }
    destruct (atom_matches a c) eqn:Hc; [|done].
    rewrite IH; [done|]. intros n Hn Hall.
    replace (S pos + n)%nat with (pos + S n)%nat by lia.
    apply (H (S n)); [simpl; lia|]. simpl. by constructor.
Qed.

(** The repetition takes nothing at a character that does not match. *)
Lemma star_stop (a : atom) (k : list ascii → nat → span → option span)
    (c : ascii) (s : list ascii) (pos : nat) (g : span) :
  atom_matches a c = false → star a k (c :: s) pos g = k (c :: s) pos g.
Proof. intros Hc. simpl. by rewrite Hc. Qed.

(** *** Characters *)

Lemma digit_not_underscore (c : ascii) : is_digit c = true → c ≠ underscore.
Proof. intros H ->. discriminate. Qed.

Lemma digit_not_dot (c : ascii) : is_digit c = true → c ≠ dot.
Proof. intros H ->. discriminate. Qed.

Lemma eqb_underscore (c : ascii) : c ≠ underscore → Ascii.eqb c underscore = false.
Proof. intros H. by apply Ascii.eqb_neq. Qed.

(** *** ['%.5d'] *)

Lemma string_of_uint_digits (u : Decimal.uint) :
  Forall (λ c, is_digit c = true) (chars (NilEmpty.string_of_uint u)).
Proof. induction u; simpl; constructor; done. Qed.

Lemma format_05d_digits (j : Z) :
  0 ≤ j →
  Forall (λ c, is_digit c = true) (chars (format_05d j)) ∧
  (5 ≤ length (chars (format_05d j)))%nat.
Proof.
  intros Hj. unfold format_05d.
  destruct (Z.ltb_spec j 0) as [Hneg|_]; [lia|].
  rewrite chars_str. split.
  - apply Forall_app. split; [|apply string_of_uint_digits].
    apply Forall_replicate. done.
  - rewrite length_app, length_replicate. lia.
Qed.

(** *** [os.path] *)

Lemma rfind_from_absent (c : ascii) (l : list ascii) (i last : Z) :
  c ∉ l → rfind_from c l i last = last.
Proof.
  revert i last. induction l as [|x l IH]; intros i last Hc; simpl; [done|].
  apply not_elem_of_cons in Hc as [Hne Hc].
  rewrite IH by done. destruct (Ascii.eqb_spec x c); congruence.
Qed.

Lemma rfind_from_app (c : ascii) (l1 l2 : list ascii) (i last : Z) :
  rfind_from c (l1 ++ l2) i last =
  rfind_from c l2 (i + Z.of_nat (length l1)) (rfind_from c l1 i last).
Proof.
  revert i last. induction l1 as [|x l1 IH]; intros i last; simpl.
  - by rewrite Z.add_0_r.
  - rewrite IH. f_equal. lia.
Qed.

Lemma rfind_last (c : ascii) (l1 l2 : list ascii) :
  c ∉ l2 → rfind c (l1 ++ c :: l2) = Z.of_nat (length l1).
Proof.
  intros Hc. unfold rfind. rewrite rfind_from_app. simpl.
  rewrite Ascii.eqb_refl. by rewrite rfind_from_absent.
Qed.

End PyProofs.

(* ================================================================== *)
(** * Jterator UI: proofs                                              *)
(* ================================================================== *)

Section JtuiProofs.
Import Py Jtui.

Variable list_projects : string → result (list string).
Variable create_batches : Z → pyobj → result (list Batch).
Variable call_on_ids : pyobj → list (list Z) → result (list Z).
Variable as_ids : pyobj → result (list Z).

(** C2: for every jtproject payload, [create_joblist] raises: [NameError] on
    the unbound name [pipeline] while it evaluates the arguments of
    [ImageAnalysisPipeline] (or, for a payload without the key, [KeyError]
    on ['experiment_id'] one statement earlier).  Either way this is before
    the batches are built and before the [try] block, so it returns neither
    a job list nor a null job list. *)
Theorem create_joblist_raises_NameError
    (channel_images : list ChannelImage) (jtproject : JtProject) :
  create_joblist create_batches call_on_ids as_ids channel_images jtproject =
  Raise (match experiment_id jtproject with
         | Some _ => NameError "pipeline"
         | None => KeyError "experiment_id"
         end).
Proof. by destruct jtproject as [[i|] n p]. Qed.

(** C9: no configuration and no content of the [pipes] directory makes
    [get_available_jtpipelines] answer with a non-empty list; whenever the
    listing of the directory goes through, whatever it lists, the answer is
    the empty list. *)
Theorem get_available_jtpipelines_is_empty (config : gmap string string) :
  (∀ pipes, get_available_jtpipelines list_projects config = Ok pipes → pipes = []) ∧
  (∀ location projects,
     config !! "JTUI_REPO_DIR_LOCATION" = Some location →
     list_projects (os_path_join location "pipes") = Ok projects →
     get_available_jtpipelines list_projects config = Ok []).
Proof.
  unfold get_available_jtpipelines. split.
  - intros pipes. destruct (config !! "JTUI_REPO_DIR_LOCATION") as [location|];
      [|discriminate].
    destruct (list_projects _) as [projects|e]; simpl; congruence.
  - intros location projects -> Hlist. by rewrite Hlist.
Qed.

End JtuiProofs.

Section JtuiWitnesses.
Import Py Jtui.

Lemma get_available_jtpipelines_is_empty_witness :
  get_available_jtpipelines (λ _, Ok ["/repo/pipes/cells"; "/repo/pipes/nuclei"])
    {[ "JTUI_REPO_DIR_LOCATION" := "/repo" ]} = Ok [].
Proof.
  apply (proj2 (get_available_jtpipelines_is_empty
                  (λ _, Ok ["/repo/pipes/cells"; "/repo/pipes/nuclei"])
                  {[ "JTUI_REPO_DIR_LOCATION" := "/repo" ]})
           "/repo" ["/repo/pipes/cells"; "/repo/pipes/nuclei"]);
    reflexivity.
Defined.

End JtuiWitnesses.

Section JtuiOutputProofs.
Import Py Jtui.

Lemma for_each_Ok {A B : Type} (f : A → result B) (xs : list A) (ys : list B) :
  for_each f xs = Ok ys → Forall2 (λ x y, f x = Ok y) xs ys.
Proof.
  revert ys. induction xs as [|x xs IH]; simpl; intros ys H.
  - injection H as <-. constructor.
  - destruct (f x) as [y|e] eqn:Hx; simpl in H; [|discriminate].
    destruct (for_each f xs) as [ys'|e] eqn:Hxs; simpl in H; [|discriminate].
    injection H as <-. constructor; [done | by apply IH].
Qed.

(** What a successful [job_output] put into the entry. *)
Lemma job_output_Ok (fs : FileSystem) (tasks : gmap Z TaskInfo) (log_dir figures_dir : string)
    (module_names : list string) (job : RunJob) (entry : JobOutput) :
  job_output fs tasks log_dir figures_dir module_names job = Ok entry →
  ∃ task_info,
    tasks !! persistent_id job = Some task_info ∧
    failed entry = negb (bool_decide (exitcode task_info = Some 0)) ∧
    submissionId entry = submission_id task_info ∧
    name entry = jobname job ∧
    job_log fs job = Ok (log entry).
Proof.
  unfold job_output. intros H.
  repeat match type of H with
         | (mbind _ ?m = Ok _) => destruct m eqn:?; simpl in H; [|discriminate]
         end.
  destruct (tasks !! persistent_id job) as [task_info|]; [|discriminate].
  simplify_eq/=. eexists. by repeat split.
Qed.

(** C5: when [_get_output] returns, its entries are those of the visited
    [RunJob]s in order, and each entry's ['failed'] is true if and only if
    the exit code of the Task row with the job's persistent id is not 0 (an
    unset exit code compares unequal to 0), and its ['submissionId'] is the
    [submission_id] of that same row. *)
Theorem get_output_failed_iff_nonzero_exitcode
    (fs : FileSystem) (tasks : gmap Z TaskInfo) (jobs : list task)
    (log_dir figures_dir : string) (module_names : list string) (output : list JobOutput) :
  _get_output fs tasks jobs log_dir figures_dir module_names = Ok output →
  Forall2
    (λ job entry, ∃ task_info,
       tasks !! persistent_id job = Some task_info ∧
       (failed entry = true ↔ exitcode task_info ≠ Some 0) ∧
       submissionId entry = submission_id task_info)
    (run_jobs_of jobs) output.
Proof.
  intros H. apply for_each_Ok in H.
  eapply Forall2_impl; [exact H|]. intros job entry Hjob. simpl in Hjob.
  apply job_output_Ok in Hjob as (task_info & Hget & Hfailed & Hsub & _).
  exists task_info. split; [done|]. split; [|done].
  rewrite Hfailed, negb_true_iff, bool_decide_eq_false. done.
Qed.

Lemma get_output_failed_iff_nonzero_exitcode_witness :
  Forall2
    (λ job entry, ∃ task_info,
       sample_tasks !! persistent_id job = Some task_info ∧
       (failed entry = true ↔ exitcode task_info ≠ Some 0) ∧
       submissionId entry = submission_id task_info)
    (run_jobs_of sample_jobs)
    [mkJobOutput 1 9 "jtui_run_000001" ("done" +:+ String newline EmptyString)
       [mkModuleOutput "align" (Some "align out") (Some "align err");
        mkModuleOutput "segment" (Some "segment out") (Some "segment err")]
       true].
Proof.
  apply (get_output_failed_iff_nonzero_exitcode paired_fs sample_tasks sample_jobs
           "/log" "/fig" ["align"; "segment"]).
  vm_compute. reflexivity.
Defined.

Lemma newline_not_in_still_running : newline ∉ chars still_running.
Proof. apply (bool_decide_unpack _). vm_compute. reflexivity. Qed.

Lemma joined_log_not_still_running (out err : string) :
  out +:+ String newline EmptyString +:+ err ≠ still_running.
Proof.
  intros H. apply newline_not_in_still_running. rewrite <- H, !chars_app.
  apply elem_of_app. right. apply elem_of_app. left. apply list_elem_of_here.
Qed.

Lemma read_if_exists_default (fs : FileSystem) (path : string) :
  read_if_exists fs path = Ok (default "" (file_content fs path)).
Proof.
  unfold read_if_exists, os_path_exists, read.
  by destruct (file_content fs path) as [text|].
Qed.

Lemma str_truthy_false (s : string) : str_truthy s = false ↔ s = "".
Proof. by destruct s. Qed.

Lemma default_empty_blank (c : option string) :
  default "" c = "" ↔ c = None ∨ c = Some "".
Proof.
  destruct c as [text|]; simpl; split; intros H; auto.
  - right. by rewrite H.
  - destruct H as [H|H]; [discriminate | by injection H].
Qed.

(** C6 (as stated, refuted): with the stdout file missing and the stderr
    file present but empty, the two files are neither both missing nor both
    empty, and yet the log is the still-running notice. *)
Lemma job_log_both_missing_or_both_empty_counterexample :
  ¬ (∀ fs job log, job_log fs job = Ok log →
       let out := file_content fs (stdout_file job) in
       let err := file_content fs (stderr_file job) in
       let both_missing_or_both_empty :=
         (out = None ∧ err = None) ∨ (out = Some "" ∧ err = Some "") in
       (log = still_running ↔ both_missing_or_both_empty) ∧
       (¬ both_missing_or_both_empty →
        log = default "" out +:+ String newline EmptyString +:+ default "" err)).
Proof.
  intros H.
  destruct (H empty_stderr_fs sample_job still_running eq_refl) as [[H1 _] _].
  destruct (H1 eq_refl) as [[_ Herr]|[Hout _]]; vm_compute in *; discriminate.
Qed.

(** C6 (amended): every entry [_get_output] reports carries the log of its
    [RunJob]; that log always exists, it is the still-running notice exactly
    when each of the two files is missing or empty (one may be missing and
    the other empty), and otherwise it is the stdout content, a single
    newline and the stderr content, a missing file counting as empty. *)
Theorem job_log_still_running_iff_both_blank (fs : FileSystem) :
  (∀ tasks jobs log_dir figures_dir module_names output,
     _get_output fs tasks jobs log_dir figures_dir module_names = Ok output →
     Forall2 (λ job entry, job_log fs job = Ok (log entry)) (run_jobs_of jobs) output) ∧
  (∀ job,
     let out := file_content fs (stdout_file job) in
     let err := file_content fs (stderr_file job) in
     ∃ log, job_log fs job = Ok log ∧
       (log = still_running ↔
        (out = None ∨ out = Some "") ∧ (err = None ∨ err = Some "")) ∧
       (log ≠ still_running →
        log = default "" out +:+ String newline EmptyString +:+ default "" err)).
Proof.
  split.
  - intros tasks jobs log_dir figures_dir module_names output H.
    apply for_each_Ok in H. eapply Forall2_impl; [exact H|].
    intros job entry Hjob. simpl in Hjob.
    by apply job_output_Ok in Hjob as (task_info & _ & _ & _ & _ & Hlog).
  - intros job out err. unfold job_log.
    rewrite !read_if_exists_default. fold out err. simpl.
    pose proof (default_empty_blank out) as Ho.
    pose proof (default_empty_blank err) as He.
    pose proof (str_truthy_false (default "" out)) as Hto.
    pose proof (str_truthy_false (default "" err)) as Hte.
    destruct (str_truthy (default "" out)), (str_truthy (default "" err)); simpl;
      eexists; (split; [reflexivity|]); (split; [|done]);
      rewrite <- Ho, <- He, <- Hto, <- Hte; split;
      try (intros H; by apply joined_log_not_still_running in H);
      try (intros [? ?]; discriminate); done.
Qed.

Lemma job_log_still_running_iff_both_blank_witness :
  Forall2 (λ job entry, job_log paired_fs job = Ok (log entry))
    (run_jobs_of sample_jobs)
    [mkJobOutput 1 9 "jtui_run_000001" ("done" +:+ String newline EmptyString)
       [mkModuleOutput "align" (Some "align out") (Some "align err")]
       true].
Proof.
  apply (proj1 (job_log_still_running_iff_both_blank paired_fs)
           sample_tasks sample_jobs "/log" "/fig" ["align"]).
  vm_compute. reflexivity.
Defined.

(** C4 (evaluated): both modules wrote both files and the directory lists
    [segment]'s stderr file before [align]'s; the entry of [align] then
    carries the stderr text of [segment], and the entry of [segment] that of
    [align]. *)
Theorem get_output_swaps_stderr_between_modules :
  list_module_names sample_pipeline = ["align"; "segment"] ∧
  _get_output shuffled_fs sample_tasks sample_jobs "/log" "/fig"
    (list_module_names sample_pipeline) =
  Ok [mkJobOutput 1 9 "jtui_run_000001" ("done" +:+ String newline EmptyString)
        [mkModuleOutput "align" (Some "align out") (Some "segment err");
         mkModuleOutput "segment" (Some "segment out") (Some "align err")]
        true].
Proof. split; vm_compute; reflexivity. Qed.

(** C3 (evaluated): the only stderr file of the job is
    [segment_00001.err], whose basename has [segment] before its final
    underscore-digits-dot group; its text is filed under [align], the name
    taken from the first stdout file, and [segment] gets no stderr. *)
Theorem get_output_names_stderr_files_after_stdout_files :
  glob_star partial_fs "/log" ("_" +:+ format_05d 1 +:+ ".err") =
    ["/log/segment_00001.err"] ∧
  re_match module_regex (os_path_basename "/log/segment_00001.err") = Some "segment" ∧
  _get_output partial_fs sample_tasks sample_jobs "/log" "/fig" ["align"; "segment"] =
  Ok [mkJobOutput 1 9 "jtui_run_000001" still_running
        [mkModuleOutput "align" (Some "align out") (Some "segment err");
         mkModuleOutput "segment" (Some "segment out") None]
        true].
Proof. repeat split; vm_compute; reflexivity. Qed.

(** *** The module-file pattern *)

(** After the module name nothing but the underscore starts a match of the
    pattern's tail. *)
Lemma module_tail_needs_underscore (l : list ascii) (n pos : nat) (g : span) :
  Forall (λ c, c ≠ underscore) l →
  match_here [GroupClose; One (Lit underscore); Plus Digit; One (Lit dot)]
    (drop n l) pos g = None.
Proof.
  intros Hl. simpl.
  destruct (drop n l) as [|c l'] eqn:Hdrop; [done|].
  assert (Hc : c ≠ underscore).
  { apply (Forall_drop _ n) in Hl. rewrite Hdrop in Hl. by inversion Hl. }
  by rewrite eqb_underscore.
Qed.

(** On [q_<digits>.<ext>] the pattern matches with group 1 spanning [q]. *)
Lemma module_regex_match (q pad ext : list ascii) :
  Forall (λ c, c ≠ newline) q →
  pad ≠ [] → Forall (λ c, is_digit c = true) pad →
  Forall (λ c, c ≠ underscore) ext →
  match_here module_regex (q ++ underscore :: pad ++ dot :: ext) 0 (None, None) =
  Some (Some 0%nat, Some (length q)).
Proof.
  intros Hq Hne Hpad Hext. unfold module_regex.
  change (star AnyChar
            (match_here [GroupClose; One (Lit underscore); Plus Digit; One (Lit dot)])
            (q ++ underscore :: pad ++ dot :: ext) 0 (Some 0%nat, None) =
          Some (Some 0%nat, Some (length q))).
  apply star_app.
  { eapply Forall_impl; [exact Hq|]. intros c Hc. simpl.
    by rewrite negb_true_iff, Ascii.eqb_neq. }
  cbn [star]. change (atom_matches AnyChar underscore) with true. cbv iota.
  rewrite star_None.
  2:{ intros n _ _. apply module_tail_needs_underscore.
      apply Forall_app. split.
      - eapply Forall_impl; [exact Hpad|]. apply digit_not_underscore.
      - constructor; [done|exact Hext]. }
  destruct pad as [|d pad]; [done|]. apply Forall_cons in Hpad as [Hd Hpad].
  cbn [match_here app fst snd]. change (atom_matches (Lit underscore) underscore) with true.
  cbv iota. cbn [atom_matches]. rewrite Hd.
  apply star_app; [exact Hpad|].
  rewrite star_stop by done. by cbn.
Qed.

(** X1: the module name the pattern gives for a log or figure file
    [q_<j as five digits>.<ext>], reached through the directory it was
    globbed in, is [q], the part of the basename before the final
    underscore-digits-dot group. *)
Theorem module_name_of_job_file (dirname q ext : string) (j : Z) :
  0 ≤ j →
  newline ∉ chars q → slash ∉ chars q →
  Forall (λ c, c ≠ underscore ∧ c ≠ slash) (chars ext) →
  re_match module_regex
    (os_path_basename (os_path_join dirname (q +:+ "_" +:+ format_05d j +:+ "." +:+ ext))) =
  Some q.
Proof.
  intros Hj Hnl Hsl Hext.
  destruct (format_05d_digits j Hj) as [Hdigits Hlen].
  set (n := q +:+ "_" +:+ format_05d j +:+ "." +:+ ext).
  assert (Hn : chars n = chars q ++ underscore :: chars (format_05d j) ++ dot :: chars ext).
  { unfold n. by rewrite !chars_app. }
  assert (Hnoslash : slash ∉ chars n).
  { rewrite Hn. rewrite !elem_of_app, !elem_of_cons, !elem_of_app, !elem_of_cons.
    intros [H|[H|[H|[H|H]]]]; try done.
    - rewrite Forall_forall in Hdigits. by specialize (Hdigits _ H).
    - rewrite Forall_forall in Hext. by destruct (Hext _ H). }
  assert (Hbase : os_path_basename (os_path_join dirname n) = n).
  { unfold os_path_basename, os_path_join.
    assert (Hstart : startswith n "/" = false).
    { apply bool_decide_eq_false. intros [k Hk]. apply Hnoslash. rewrite Hk.
      apply list_elem_of_here. }
    rewrite Hstart.
    destruct (bool_decide (dirname = "")) eqn:Hempty; simpl.
    - apply bool_decide_eq_true in Hempty. subst dirname.
      change ("" +:+ n) with n. unfold rfind. rewrite rfind_from_absent by done.
      simpl. apply str_chars.
    - destruct (endswith dirname "/") eqn:Hend.
      + apply bool_decide_eq_true in Hend. destruct Hend as [k Hk].
        rewrite chars_app, Hk. change (chars "/") with [slash].
        rewrite <- app_assoc. simpl. rewrite rfind_last by done.
        replace (Z.to_nat (Z.of_nat (length k) + 1)) with (length (k ++ [slash])).
        2:{ rewrite length_app. simpl. lia. }
        replace (k ++ slash :: chars n) with ((k ++ [slash]) ++ chars n)
          by (by rewrite <- app_assoc).
        rewrite drop_app_length. apply str_chars.
      + rewrite !chars_app. change (chars "/") with [slash]. simpl.
        rewrite rfind_last by done.
        replace (Z.to_nat (Z.of_nat (length (chars dirname)) + 1))
          with (length (chars dirname ++ [slash])).
        2:{ rewrite length_app. simpl. lia. }
        replace (chars dirname ++ slash :: chars n)
          with ((chars dirname ++ [slash]) ++ chars n) by (by rewrite <- app_assoc).
        rewrite drop_app_length. apply str_chars. }
  rewrite Hbase. unfold re_match. rewrite Hn.
  rewrite module_regex_match.
  - simpl. rewrite Nat.sub_0_r, drop_0, take_app_length. by rewrite str_chars.
  - by apply Forall_forall; intros c Hc ->.
  - intros Hnil. rewrite Hnil in Hlen. simpl in Hlen. lia.
  - exact Hdigits.
  - eapply Forall_impl; [exact Hext|]. by intros c [? _].
Qed.

(** The files a glob of [_get_output] returns are the entries of the
    directory that do not start with a dot and end with the suffix, each
    joined to the directory. *)
Lemma elem_of_glob_star (fs : FileSystem) (dirname suffix path : string) :
  path ∈ glob_star fs dirname suffix ↔
  ∃ n, n ∈ listdir fs dirname ∧ path = os_path_join dirname n ∧
       startswith n "." = false ∧ endswith n suffix = true.
Proof.
  unfold glob_star. rewrite list_elem_of_fmap. split.
  - intros (n & -> & Hn). apply list_elem_of_In, filter_In in Hn as [Hin Hc].
    apply andb_true_iff in Hc as [Hc1 Hc2]. apply negb_true_iff in Hc1.
    exists n. by rewrite list_elem_of_In.
  - intros (n & Hin & -> & Hc1 & Hc2). exists n. split; [done|].
    apply list_elem_of_In, filter_In. split; [by apply list_elem_of_In|].
    by rewrite Hc1, Hc2.
Qed.

(** *** The job-name pattern *)

Lemma digits_stop_at_underscore (b t : list ascii) (n : nat) :
  Forall (λ c, atom_matches Digit c = true) (take n (b ++ underscore :: t)) →
  (n ≤ length b)%nat.
Proof.
  revert n. induction b as [|c b IH]; intros [|n] H; simpl in *; try lia.
  - apply Forall_cons in H as [H _]. discriminate.
  - apply Forall_cons in H as [_ H]. apply IH in H. lia.
Qed.

Lemma end_anchor_fails (s : list ascii) (pos : nat) (g : span) :
  (2 ≤ length s)%nat → match_here [GroupClose; EndAnchor] s pos g = None.
Proof. destruct s as [|x [|y s]]; simpl; intros H; (lia || done). Qed.

(** No match of the job-name pattern starts before the last underscore. *)
Lemma jobname_no_match_inside (c : ascii) (b t : list ascii) (pos : nat) :
  t ≠ [] →
  match_here jobname_regex (c :: b ++ underscore :: t) pos (None, None) = None.
Proof.
  intros Ht. unfold jobname_regex. cbn [match_here].
  destruct (atom_matches (Lit underscore) c); [|done].
  destruct (b ++ underscore :: t) as [|c' rest] eqn:E; [done|].
  destruct (atom_matches Digit c') eqn:Hc'; [|done].
  destruct b as [|c'' b]; simpl in E; injection E as <- <-; [discriminate|].
  apply star_None. intros n Hn Hall. apply end_anchor_fails.
  apply digits_stop_at_underscore in Hall.
  rewrite length_drop, length_app. simpl. destruct t; [done|simpl; lia].
Qed.

(** The search finds the digits after the last underscore. *)
Lemma jobname_regex_search (base ds : list ascii) (pos : nat) :
  ds ≠ [] → Forall (λ c, is_digit c = true) ds →
  search_from jobname_regex (base ++ underscore :: ds) pos =
  Some (Some (S (pos + length base)), Some (S (pos + length base) + length ds)%nat).
Proof.
  intros Hne Hds. revert pos. induction base as [|c base IH]; intros pos.
  - destruct ds as [|d ds]; [done|]. apply Forall_cons in Hds as [Hd Hds].
    cbn [app search_from]. unfold jobname_regex. cbn [match_here].
    change (atom_matches (Lit underscore) underscore) with true. cbv iota.
    cbn [atom_matches fst snd]. rewrite Hd.
    match goal with
    | |- context [star Digit ?k ds ?p ?g] =>
        pose proof (star_app Digit k ds [] p g
                      (Some (S pos), Some (p + length ds)%nat) Hds eq_refl) as Hstar
    end.
    rewrite app_nil_r in Hstar. rewrite Hstar. simpl.
    rewrite Nat.add_0_r. do 3 f_equal. lia.
  - cbn [app search_from]. rewrite jobname_no_match_inside by done.
    rewrite IH. simpl. rewrite !Nat.add_succ_r. done.
Qed.

Lemma int_digits (ds : list ascii) :
  ds ≠ [] → Forall (λ c, is_digit c = true) ds →
  ∃ j, int (str ds) = Ok j ∧ 0 ≤ j.
Proof.
  intros Hne Hds. unfold int. rewrite chars_str.
  assert (Hall : forallb is_digit ds = true).
  { apply forallb_forall. intros c Hc. rewrite Forall_forall in Hds.
    apply Hds. by apply list_elem_of_In. }
  rewrite Hall, bool_decide_eq_false_2 by done. simpl. eexists. split; [done|].
  assert (Hacc : ∀ acc, 0 ≤ acc →
            0 ≤ fold_left (λ acc c, 10 * acc + (Z.of_nat (nat_of_ascii c) - 48)) ds acc).
  { clear Hne Hall. induction Hds as [|c ds Hc Hds IH]; intros acc Hacc; simpl; [done|].
    apply IH. unfold is_digit in Hc. apply andb_true_iff in Hc as [Hc _].
    apply Nat.leb_le in Hc. lia. }
  by apply Hacc.
Qed.

(** X2: for a job name [base_<digits>] the search yields the digits after
    the last underscore, and [int] reads them as a non-negative number. *)
Theorem job_number_of_jobname (base digits : string) :
  digits ≠ "" → Forall (λ c, is_digit c = true) (chars digits) →
  group (re_search jobname_regex (base +:+ "_" +:+ digits)) = Ok digits ∧
  ∃ j, int digits = Ok j ∧ 0 ≤ j.
Proof.
  intros Hne Hds.
  assert (Hne' : chars digits ≠ []).
  { intros H. apply Hne. by rewrite <- (str_chars digits), H. }
  split.
  - unfold re_search. rewrite !chars_app. change (chars "_") with [underscore].
    simpl. rewrite jobname_regex_search by done. simpl.
    replace (chars base ++ underscore :: chars digits)
      with ((chars base ++ [underscore]) ++ chars digits) by (by rewrite <- app_assoc).
    replace (S (length (chars base))) with (length (chars base ++ [underscore])).
    2:{ rewrite length_app. simpl. lia. }
    rewrite drop_app_length, take_ge by lia. by rewrite str_chars.
  - rewrite <- (str_chars digits). by apply int_digits.
Qed.

(** *** Dictionaries built by [zip] *)

Lemma fold_insert_lookup {V : Type} (l : list (string * V)) (m : gmap string V)
    (k : string) :
  match (fold_left (λ m kv, <[kv.1 := kv.2]> m) l m) !! k with
  | Some v => ((k, v) ∈ l) ∨ m !! k = Some v
  | None => (k ∉ (fst <$> l)) ∧ m !! k = None
  end.
Proof.
  revert m. induction l as [|[k' v'] l IH]; intros m; simpl.
  - destruct (m !! k) eqn:Hk; [by right|]. split; [apply not_elem_of_nil|done].
  - specialize (IH (<[k' := v']> m)).
    destruct ((fold_left _ l _) !! k) as [v|].
    + destruct IH as [IH|IH]; [left; by right|].
      destruct (decide (k' = k)) as [->|Hne].
      * rewrite lookup_insert_eq in IH. injection IH as ->. left. by left.
      * rewrite lookup_insert_ne in IH by done. by right.
    + destruct IH as [IH1 IH2].
      destruct (decide (k' = k)) as [->|Hne].
      * by rewrite lookup_insert_eq in IH2.
      * rewrite lookup_insert_ne in IH2 by done. split; [|done].
        rewrite not_elem_of_cons. split; [congruence|done].
Qed.

Lemma zip_Forall2 {A K V : Type} (R : A → K → Prop) (S : A → V → Prop)
    (xs : list A) (ks : list K) (vs : list V) (k : K) (v : V) :
  Forall2 R xs ks → Forall2 S xs vs → (k, v) ∈ zip ks vs →
  ∃ x, x ∈ xs ∧ R x k ∧ S x v.
Proof.
  intros HR. revert vs. induction HR as [|x k' xs ks Hx HR IH]; intros vs HS Hin.
  - inversion HS; subst. simpl in Hin. by apply elem_of_nil in Hin.
  - inversion HS as [|? v' ? vs' Hv HS']; subst. simpl in Hin.
    apply elem_of_cons in Hin as [Heq|Hin].
    + injection Heq as -> ->. exists x. split; [by left|done].
    + destruct (IH _ HS' Hin) as (x' & Hx' & ? & ?). exists x'. split; [by right|done].
Qed.

Lemma Forall2_elem_of_l {A K : Type} (R : A → K → Prop) (xs : list A) (ks : list K) (x : A) :
  Forall2 R xs ks → x ∈ xs → ∃ k, k ∈ ks ∧ R x k.
Proof.
  induction 1 as [|x' k' xs ks Hx HR IH]; intros Hin.
  - by apply elem_of_nil in Hin.
  - apply elem_of_cons in Hin as [->|Hin].
    + exists k'. split; [by left|done].
    + destruct (IH Hin) as (k & ? & ?). exists k. split; [by right|done].
Qed.

(** *** Per-module stdout *)

(** X3: when [job_output] returns, the job number is the one read off the job
    name, the ['modules'] list names the given modules in order, and the
    stdout of a module's entry is the text of a stdout file of this job whose
    own basename yields that module name, or null when no stdout file of the
    job yields it. *)
Theorem job_output_stdout_of_module
    (fs : FileSystem) (tasks : gmap Z TaskInfo) (log_dir figures_dir : string)
    (module_names : list string) (job : RunJob) (entry : JobOutput) :
  job_output fs tasks log_dir figures_dir module_names job = Ok entry →
  ∃ digits,
    group (re_search jobname_regex (jobname job)) = Ok digits ∧
    int digits = Ok (id entry) ∧
    map module_name (modules entry) = module_names ∧
    ∀ mo, mo ∈ modules entry →
      match module_stdout mo with
      | Some text =>
          ∃ f, f ∈ glob_star fs log_dir ("_" +:+ format_05d (id entry) +:+ ".out") ∧
               re_match module_regex (os_path_basename f) = Some (module_name mo) ∧
               file_content fs f = Some text
      | None =>
          ∀ f, f ∈ glob_star fs log_dir ("_" +:+ format_05d (id entry) +:+ ".out") →
               re_match module_regex (os_path_basename f) ≠ Some (module_name mo)
      end.
Proof.
  unfold job_output. intros H. cbv [mbind result_bind] in H.
  destruct (group _) as [digits|] eqn:Hdigits; [|discriminate].
  destruct (int digits) as [j|] eqn:Hj; [|discriminate].
  destruct (job_log fs job) as [log|]; [|discriminate].
  destruct (module_names_of (glob_star fs log_dir ("_" +:+ format_05d j +:+ ".out")))
    as [module_file|] eqn:Hnames; [|discriminate].
  destruct (for_each (read fs) (glob_star fs log_dir ("_" +:+ format_05d j +:+ ".out")))
    as [stdout_texts|] eqn:Htexts; [|discriminate].
  destruct (for_each (read fs) (glob_star fs log_dir ("_" +:+ format_05d j +:+ ".err")))
    as [stderr_texts|]; [|discriminate].
  destruct (module_names_of (glob_star fs figures_dir _)) as [fig_names|]; [|discriminate].
  destruct (tasks !! persistent_id job) as [task_info|]; [|discriminate].
  injection H as <-. exists digits. cbn [id modules].
  split; [done|]. split; [done|].
  split. { rewrite map_map. simpl. apply map_id. }
  apply for_each_Ok in Hnames, Htexts.
  intros mo Hmo. apply list_elem_of_fmap in Hmo as (m & -> & Hm). cbn [module_stdout module_name].
  unfold dict_zip.
  pose proof (fold_insert_lookup (zip module_file stdout_texts) ∅ m) as Hlookup.
  destruct ((fold_left _ (zip module_file stdout_texts) ∅) !! m) as [text|].
  - destruct Hlookup as [Hin|Hempty]; [|by rewrite lookup_empty in Hempty].
    destruct (zip_Forall2 _ _ _ _ _ _ _ Hnames Htexts Hin) as (f & Hf & Hname & Htext).
    exists f. split; [done|]. split.
    + destruct (re_match module_regex (os_path_basename f)); simpl in Hname;
        [by injection Hname as -> | discriminate].
    + unfold read in Htext. destruct (file_content fs f); [by injection Htext as ->|discriminate].
  - destruct Hlookup as [Hnotin _]. intros f Hf Hmatch. apply Hnotin.
    destruct (Forall2_elem_of_l _ _ _ _ Hnames Hf) as (k & Hk & Hname).
    rewrite Hmatch in Hname. simpl in Hname. injection Hname as <-.
    rewrite fst_zip; [done|].
    apply Forall2_length in Hnames, Htexts. lia.
Qed.

(** *** Per-module stderr *)

Lemma zip_lookup_Forall2 {A B K V : Type} (R : A → K → Prop) (Q : B → V → Prop)
    (xs : list A) (ys : list B) (ks : list K) (vs : list V) (k : K) (v : V) :
  Forall2 R xs ks → Forall2 Q ys vs → (k, v) ∈ zip ks vs →
  ∃ i x y, xs !! i = Some x ∧ ys !! i = Some y ∧ R x k ∧ Q y v.
Proof.
  intros HR. revert ys vs. induction HR as [|x k' xs ks Hx HR IH]; intros ys vs HS Hin.
  - simpl in Hin. by apply elem_of_nil in Hin.
  - destruct HS as [|y v' ys vs Hy HS]; simpl in Hin; [by apply elem_of_nil in Hin|].
    apply elem_of_cons in Hin as [Heq|Hin].
    + injection Heq as -> ->. by exists 0%nat, x, y.
    + destruct (IH _ _ HS Hin) as (i & x' & y' & ? & ? & ? & ?).
      by exists (S i), x', y'.
Qed.

(** X4: when [job_output] returns, the stderr of a module's entry, when it
    is not null, is the text of the stderr file that stands at the same
    position of the stderr glob as a stdout file, yielding that module name,
    stands in the stdout glob: stderr texts are keyed by position, under the
    names of the stdout files. *)
Theorem job_output_stderr_by_position
    (fs : FileSystem) (tasks : gmap Z TaskInfo) (log_dir figures_dir : string)
    (module_names : list string) (job : RunJob) (entry : JobOutput) :
  job_output fs tasks log_dir figures_dir module_names job = Ok entry →
  ∀ mo text, mo ∈ modules entry → module_stderr mo = Some text →
    ∃ i f_out f_err,
      glob_star fs log_dir ("_" +:+ format_05d (id entry) +:+ ".out") !! i = Some f_out ∧
      glob_star fs log_dir ("_" +:+ format_05d (id entry) +:+ ".err") !! i = Some f_err ∧
      re_match module_regex (os_path_basename f_out) = Some (module_name mo) ∧
      file_content fs f_err = Some text.
Proof.
  unfold job_output. intros H. cbv [mbind result_bind] in H.
  destruct (group _) as [digits|] eqn:Hdigits; [|discriminate].
  destruct (int digits) as [j|] eqn:Hj; [|discriminate].
  destruct (job_log fs job) as [log|]; [|discriminate].
  destruct (module_names_of (glob_star fs log_dir ("_" +:+ format_05d j +:+ ".out")))
    as [module_file|] eqn:Hnames; [|discriminate].
  destruct (for_each (read fs) (glob_star fs log_dir ("_" +:+ format_05d j +:+ ".out")))
    as [stdout_texts|]; [|discriminate].
  destruct (for_each (read fs) (glob_star fs log_dir ("_" +:+ format_05d j +:+ ".err")))
    as [stderr_texts|] eqn:Htexts; [|discriminate].
  destruct (module_names_of (glob_star fs figures_dir _)) as [fig_names|]; [|discriminate].
  destruct (tasks !! persistent_id job) as [task_info|]; simpl in H; [|discriminate].
  injection H as <-. cbn [id modules].
  apply for_each_Ok in Hnames, Htexts.
  intros mo text Hmo Hstderr.
  apply list_elem_of_fmap in Hmo as (m & -> & Hm). cbn [module_stderr module_name] in *.
  unfold dict_zip in Hstderr.
  pose proof (fold_insert_lookup (zip module_file stderr_texts) ∅ m) as Hlookup.
  rewrite Hstderr in Hlookup.
  destruct Hlookup as [Hin|Hempty]; [|by rewrite lookup_empty in Hempty].
  destruct (zip_lookup_Forall2 _ _ _ _ _ _ _ _ Hnames Htexts Hin)
    as (i & f_out & f_err & Hout & Herr & Hname & Htext).
  exists i, f_out, f_err. split; [done|]. split; [done|]. split.
  - destruct (re_match module_regex (os_path_basename f_out)); simpl in Hname;
      [by injection Hname as -> | discriminate].
  - unfold read in Htext.
    destruct (file_content fs f_err); [by injection Htext as ->|discriminate].
Qed.

Lemma job_output_stderr_by_position_witness :
  ∃ i f_out f_err,
    glob_star shuffled_fs "/log" ("_" +:+ format_05d 1 +:+ ".out") !! i = Some f_out ∧
    glob_star shuffled_fs "/log" ("_" +:+ format_05d 1 +:+ ".err") !! i = Some f_err ∧
    re_match module_regex (os_path_basename f_out) = Some "align" ∧
    file_content shuffled_fs f_err = Some "segment err".
Proof.
  refine (job_output_stderr_by_position shuffled_fs sample_tasks "/log" "/fig"
            ["align"; "segment"] sample_job
            (mkJobOutput 1 9 "jtui_run_000001" ("done" +:+ String newline EmptyString)
               [mkModuleOutput "align" (Some "align out") (Some "segment err");
                mkModuleOutput "segment" (Some "segment out") (Some "align err")]
               true)
            _ (mkModuleOutput "align" (Some "align out") (Some "segment err"))
            "segment err" _ _).
  - vm_compute. reflexivity.
  - apply list_elem_of_here.
  - reflexivity.
Defined.

Lemma job_output_stdout_of_module_witness :
  ∃ digits,
    group (re_search jobname_regex (jobname sample_job)) = Ok digits ∧
    int digits = Ok 1 ∧
    map module_name
      [mkModuleOutput "align" (Some "align out") (Some "segment err");
       mkModuleOutput "segment" (Some "segment out") (Some "align err")] =
      ["align"; "segment"] ∧
    ∀ mo, mo ∈ [mkModuleOutput "align" (Some "align out") (Some "segment err");
                mkModuleOutput "segment" (Some "segment out") (Some "align err")] →
      match module_stdout mo with
      | Some text =>
          ∃ f, f ∈ glob_star shuffled_fs "/log" ("_" +:+ format_05d 1 +:+ ".out") ∧
               re_match module_regex (os_path_basename f) = Some (module_name mo) ∧
               file_content shuffled_fs f = Some text
      | None =>
          ∀ f, f ∈ glob_star shuffled_fs "/log" ("_" +:+ format_05d 1 +:+ ".out") →
               re_match module_regex (os_path_basename f) ≠ Some (module_name mo)
      end.
Proof.
  apply (job_output_stdout_of_module shuffled_fs sample_tasks "/log" "/fig"
           ["align"; "segment"] sample_job
           (mkJobOutput 1 9 "jtui_run_000001" ("done" +:+ String newline EmptyString)
              [mkModuleOutput "align" (Some "align out") (Some "segment err");
               mkModuleOutput "segment" (Some "segment out") (Some "align err")]
              true)).
  vm_compute. reflexivity.
Defined.

Lemma module_name_of_job_file_witness :
  re_match module_regex
    (os_path_basename (os_path_join "/log" ("segment" +:+ "_" +:+ format_05d 1 +:+ "." +:+ "err"))) =
  Some "segment".
Proof.
  apply (module_name_of_job_file "/log" "segment" "err" 1).
  - lia.
  - apply (bool_decide_unpack _). vm_compute. reflexivity.
  - apply (bool_decide_unpack _). vm_compute. reflexivity.
  - apply (bool_decide_unpack _). vm_compute. reflexivity.
Defined.

Lemma job_number_of_jobname_witness :
  group (re_search jobname_regex ("jtui_run" +:+ "_" +:+ "000001")) = Ok "000001" ∧
  ∃ j, int "000001" = Ok j ∧ 0 ≤ j.
Proof.
  apply (job_number_of_jobname "jtui_run" "000001").
  - discriminate.
  - apply (bool_decide_unpack _). vm_compute. reflexivity.
Defined.

End JtuiOutputProofs.

(* ================================================================== *)
(** * Upload handlers: further properties                              *)
(* ================================================================== *)

Section UploadMoreProofs.
Import Py Upload UploadValidity.

Variable get_microscope_type_regex : string → (string → bool) * (string → bool).
Variable secure_filename : string → string.
Variable default_message : string.

Lemma set_status_same_record (fn : string) (aid : Z) (s : FileUploadStatus)
    (table : list MicroscopeFile) :
  Forall2 same_record (set_status fn aid s table) table.
Proof.
  unfold set_status. induction table as [|f table IH]; simpl; constructor; [|exact IH].
  by destruct (_ && _).
Qed.

Lemma same_record_refl (table : list MicroscopeFile) : Forall2 same_record table table.
Proof. induction table; constructor; done. Qed.

Lemma same_record_trans (t1 t2 t3 : list MicroscopeFile) :
  Forall2 same_record t1 t2 → Forall2 same_record t2 t3 → Forall2 same_record t1 t3.
Proof.
  intros H12. revert t3. induction H12 as [|f g t1 t2 [Hn Ha] H12 IH]; intros t3 H23.
  - inversion H23. constructor.
  - inversion H23 as [|? h ? t3' [Hn' Ha'] H23']; subst. constructor; [|by apply IH].
    split; congruence.
Qed.

Lemma set_file_status_frame (kind : file_kind) (fn : string) (aid : Z)
    (s : FileUploadStatus) (db : ExperimentDb) :
  microscope_type (set_file_status kind fn aid s db) = microscope_type db ∧
  acquisitions (set_file_status kind fn aid s db) = acquisitions db ∧
  Forall2 same_record (image_table (set_file_status kind fn aid s db)) (image_table db) ∧
  Forall2 same_record (metadata_table (set_file_status kind fn aid s db)) (metadata_table db).
Proof.
  destruct kind; simpl; repeat split;
    (apply set_status_same_record || apply same_record_refl).
Qed.

(** X5: [upload_file] never adds, removes, renames or re-assigns a record and
    never touches the acquisitions: row for row both tables keep their names
    and acquisition ids, so only statuses can change.  Unless it answers
    [ok] or raises [InternalServerError] it leaves the database exactly as
    it was. *)
Theorem upload_file_only_changes_statuses
    (db : ExperimentDb) (aid : Z) (fo : option FileStorage) :
  let out := upload_file secure_filename db aid fo in
  (microscope_type out.2 = microscope_type db ∧
   acquisitions out.2 = acquisitions db ∧
   Forall2 same_record (image_table out.2) (image_table db) ∧
   Forall2 same_record (metadata_table out.2) (metadata_table db)) ∧
  (out.2 = db ∨ out.1 = Ok "ok" ∨ ∃ msg, out.1 = Raise (InternalServerError msg)).
Proof.
  unfold upload_file.
  destruct (upload_target secure_filename db aid fo) as [[[[f kind] file_obj]|]|e]; simpl;
    try (split; [repeat split; apply same_record_refl | by left]).
  assert (Hframe : ∀ s,
    let db' := set_file_status kind (name file_obj) aid s
                 (set_file_status kind (name file_obj) aid UPLOADING db) in
    microscope_type db' = microscope_type db ∧ acquisitions db' = acquisitions db ∧
    Forall2 same_record (image_table db') (image_table db) ∧
    Forall2 same_record (metadata_table db') (metadata_table db)).
  { intros s db'.
    destruct (set_file_status_frame kind (name file_obj) aid s
                (set_file_status kind (name file_obj) aid UPLOADING db))
      as (H1 & H2 & H3 & H4).
    destruct (set_file_status_frame kind (name file_obj) aid UPLOADING db)
      as (H1' & H2' & H3' & H4').
    subst db'. split; [congruence|]. split; [congruence|].
    split; eapply same_record_trans; eassumption. }
  destruct (status file_obj); simpl;
    try (split; [repeat split; apply same_record_refl | by left]);
    destruct (save_error f) as [err|]; simpl;
    (split; [apply Hframe | right; eauto]).
Qed.

Lemma one_or_none_Some {A : Type} (rows : list A) (r : A) :
  one_or_none rows = Ok (Some r) ↔ rows = [r].
Proof.
  destruct rows as [|r0 [|r1 rows]]; simpl; split; intros H; try discriminate.
  - by injection H as ->.
  - by injection H as ->.
Qed.

Lemma one_or_none_None {A : Type} (rows : list A) :
  one_or_none rows = Ok None ↔ rows = [].
Proof. destruct rows as [|r0 [|r1 rows]]; simpl; split; intros H; done. Qed.

(** What a selected [file_obj] says about the two queries. *)
Lemma upload_target_inv (db : ExperimentDb) (aid : Z) (fo : option FileStorage)
    (f : FileStorage) (kind : file_kind) (file_obj : MicroscopeFile) :
  upload_target secure_filename db aid fo = Ok (Some (f, kind, file_obj)) →
  fo = Some f ∧ str_truthy (filename f) = true ∧
  (∃ acq, get_acquisition db aid = Some acq ∧ acquisition_status acq ≠ COMPLETE) ∧
  match kind with
  | ImageFile =>
      filter_by (secure_filename (filename f)) aid (image_table db) = [file_obj] ∧
      ∃ metafile,
        one_or_none (filter_by (secure_filename (filename f)) aid (metadata_table db)) =
        Ok metafile
  | MetadataFile =>
      filter_by (secure_filename (filename f)) aid (image_table db) = [] ∧
      filter_by (secure_filename (filename f)) aid (metadata_table db) = [file_obj]
  end.
Proof.
  unfold upload_target. destruct fo as [f0|]; [|discriminate].
  destruct (str_truthy (filename f0)) eqn:Hf; simpl; [|discriminate].
  destruct (get_acquisition db aid) as [acq|]; [|discriminate].
  case_bool_decide as Hst; [discriminate|].
  destruct (one_or_none (filter_by _ aid (image_table db))) as [imgfile|] eqn:Hi;
    simpl; [|discriminate].
  destruct (one_or_none (filter_by _ aid (metadata_table db))) as [metafile|] eqn:Hm;
    simpl; [|discriminate].
  rewrite select_file_obj_cases.
  destruct imgfile as [img|], metafile as [meta|]; simpl; intros [= <- <- <-];
    (split; [done|]); (split; [done|]); (split; [by exists acq|]).
  - split; [by apply one_or_none_Some | by eexists].
  - split; [by apply one_or_none_Some | by eexists].
  - split; [by apply one_or_none_None | by apply one_or_none_Some].
Qed.

Lemma filter_by_elem (fn : string) (aid : Z) (table : list MicroscopeFile) (f : MicroscopeFile) :
  f ∈ filter_by fn aid table → name f = fn ∧ file_acquisition_id f = aid.
Proof.
  unfold filter_by. rewrite list_elem_of_In, filter_In, andb_true_iff.
  intros [_ [H1 H2]]. split; [by apply String.eqb_eq | by apply Z.eqb_eq].
Qed.

(** The rows a status write reaches are the rows the query selects. *)
Lemma filter_by_set_status (fn : string) (aid : Z) (s : FileUploadStatus)
    (table : list MicroscopeFile) :
  filter_by fn aid (set_status fn aid s table) =
  map (λ f, mkMicroscopeFile (name f) (file_acquisition_id f) s) (filter_by fn aid table).
Proof.
  unfold filter_by, set_status. induction table as [|f table IH]; simpl; [done|].
  destruct (String.eqb (name f) fn && Z.eqb (file_acquisition_id f) aid) eqn:Hc; simpl.
  - by rewrite Hc, IH.
  - by rewrite Hc, IH.
Qed.

(** What an [ok] answer of [upload_file] says about the call. *)
Lemma upload_file_ok_inv (db db' : ExperimentDb) (aid : Z) (fo : option FileStorage) :
  upload_file secure_filename db aid fo = (Ok "ok", db') →
  ∃ f kind file_obj,
    upload_target secure_filename db aid fo = Ok (Some (f, kind, file_obj)) ∧
    db' = set_file_status kind (name file_obj) aid COMPLETE
            (set_file_status kind (name file_obj) aid UPLOADING db).
Proof.
  unfold upload_file.
  destruct (upload_target secure_filename db aid fo) as [[[[f kind] file_obj]|]|e];
    [| discriminate | discriminate].
  destruct (status file_obj); try discriminate;
    destruct (save_error f); try discriminate;
    intros [= <-]; by exists f, kind, file_obj.
Qed.

(** X6: a file that [upload_file] has stored is not stored again.  After an
    [ok] answer, any later request for the same sanitized name (whatever
    status the acquisition then reports) is answered with 'Acquisition
    complete' or 'File already uploaded' and changes nothing. *)
Theorem upload_file_stores_a_file_once
    (db db' db'' : ExperimentDb) (aid : Z) (f f' : FileStorage) :
  upload_file secure_filename db aid (Some f) = (Ok "ok", db') →
  image_table db'' = image_table db' →
  metadata_table db'' = metadata_table db' →
  is_Some (get_acquisition db'' aid) →
  secure_filename (filename f') = secure_filename (filename f) →
  str_truthy (filename f') = true →
  (upload_file secure_filename db'' aid (Some f')).2 = db'' ∧
  ((upload_file secure_filename db'' aid (Some f')).1 = Ok "Acquisition complete" ∨
   (upload_file secure_filename db'' aid (Some f')).1 = Ok "File already uploaded").
Proof.
  intros Hok Himg Hmeta [acq Hacq] Hname Htruthy.
  apply upload_file_ok_inv in Hok as (f0 & kind & file_obj & Htarget & ->).
  apply upload_target_inv in Htarget as ([= <-] & _ & _ & Hrows).
  unfold upload_file, upload_target. rewrite Htruthy, Hacq, Hname. simpl.
  case_bool_decide as Hst; [by split; [|left]|].
  assert (Hobj : name file_obj = secure_filename (filename f)).
  { destruct kind; [destruct Hrows as [Hrows _]|destruct Hrows as [_ Hrows]];
      eapply (filter_by_elem _ aid); rewrite Hrows; apply list_elem_of_here. }
  rewrite Himg, Hmeta, Hobj. destruct kind; simpl.
  - destruct Hrows as [Hrows [metafile Hone]].
    rewrite !filter_by_set_status, Hrows, Hone. simpl.
    destruct metafile; simpl; by split; [|right].
  - destruct Hrows as [Hnone Hrows].
    rewrite Hnone, !filter_by_set_status, Hrows. simpl. by split; [|right].
Qed.

Lemma filter_none {A : Type} (p : A → bool) (l : list A) :
  (∀ x, In x l → p x = false) → List.filter p l = [].
Proof.
  induction l as [|a l IH]; simpl; intros H; [done|].
  rewrite (H a) by (by left). apply IH. intros x Hx. apply H. by right.
Qed.

Lemma filter_filter_impl {A : Type} (p q : A → bool) (l : list A) :
  (∀ x, p x = true → q x = true) → List.filter p (List.filter q l) = List.filter p l.
Proof.
  intros Hpq. induction l as [|a l IH]; simpl; [done|].
  destruct (q a) eqn:Hq; simpl.
  - by rewrite IH.
  - destruct (p a) eqn:Hp; [|done]. apply Hpq in Hp. congruence.
Qed.

Lemma files_of_app (acq : Acquisition) (t1 t2 : list MicroscopeFile) :
  files_of acq (t1 ++ t2) = files_of acq t1 ++ files_of acq t2.
Proof. apply List.filter_app. Qed.

(** The records [register_upload] builds all point to the acquisition. *)
Lemma files_of_new_files (regex : string → bool) (registered : list string)
    (acq : Acquisition) (files : list string) :
  files_of acq (new_files secure_filename regex registered acq files) =
  new_files secure_filename regex registered acq files.
Proof.
  unfold files_of, new_files.
  generalize (List.filter (λ f, regex f && negb (str_in (secure_filename f) registered)) files).
  intros l. induction l as [|f l IH]; simpl; [done|].
  by rewrite Z.eqb_refl, IH.
Qed.

(** Once the new records are among the registered ones, the same request
    builds no record. *)
Lemma new_files_again (regex : string → bool) (registered : list string)
    (acq : Acquisition) (files : list string) :
  new_files secure_filename regex
    (registered ++ map name (new_files secure_filename regex registered acq files))
    acq files = [].
Proof.
  unfold new_files at 1. rewrite filter_none; [done|].
  intros f Hf. destruct (regex f) eqn:Hr; simpl; [|done].
  apply negb_false_iff, str_in_spec, list_elem_of_In, in_app_iff.
  destruct (str_in (secure_filename f) registered) eqn:Hin.
  - left. by apply list_elem_of_In, str_in_spec.
  - right. apply in_map_iff.
    exists (mkMicroscopeFile (secure_filename f) (acquisition_pk acq) WAITING).
    split; [done|]. unfold new_files. apply in_map_iff. exists f. split; [done|].
    apply filter_In. split; [done|]. by rewrite Hr, Hin.
Qed.

(** The database [register_upload] leaves, whatever it answers. *)
Lemma register_upload_snd (db : ExperimentDb) (aid : Z) (files : list string) :
  (register_upload get_microscope_type_regex secure_filename db aid files).2 =
  match get_acquisition db aid with
  | None => db
  | Some acq =>
      let regex := get_microscope_type_regex (microscope_type db) in
      mkExperimentDb (microscope_type db) (acquisitions db)
        (image_table db ++
           new_files secure_filename regex.1 (map name (files_of acq (image_table db))) acq files)
        (metadata_table db ++
           new_files secure_filename regex.2 (map name (files_of acq (metadata_table db))) acq files)
  end.
Proof.
  unfold register_upload.
  destruct (get_microscope_type_regex (microscope_type db)) as [ir mr].
  destruct files as [|f files]; cbn [length Nat.eqb].
  - destruct (get_acquisition db aid); [|done]. destruct db. simpl.
    by rewrite !app_nil_r.
  - by destruct (get_acquisition db aid).
Qed.

(** X7: [register_upload] is idempotent.  Sending a request that was
    answered [ok] a second time is answered [ok] again and registers
    nothing more: the database stays as the first request left it. *)
Theorem register_upload_idempotent (db db' : ExperimentDb) (aid : Z) (files : list string) :
  register_upload get_microscope_type_regex secure_filename db aid files = (Ok "ok", db') →
  register_upload get_microscope_type_regex secure_filename db' aid files = (Ok "ok", db').
Proof.
  unfold register_upload. destruct (Nat.eqb (length files) 0); [discriminate|].
  destruct (get_microscope_type_regex (microscope_type db)) as [ir mr] eqn:Hrx.
  destruct (get_acquisition db aid) as [acq|] eqn:Hacq; [|discriminate].
  intros [= <-]. unfold get_acquisition in *.
  cbn [microscope_type acquisitions image_table metadata_table].
  rewrite Hrx, Hacq.
  by rewrite !files_of_app, !files_of_new_files, !map_app, !new_files_again, !app_nil_r.
Qed.

Lemma for_each_check_file (check : string → bool) (e : exn) (files : list string) :
  for_each (λ f : option string, match f with
                                 | Some fname => Ok (check fname)
                                 | None => Raise e
                                 end) (map Some files) =
  Ok (map check files).
Proof. induction files as [|f files IH]; simpl; [done|]. by rewrite IH. Qed.

Lemma flagged_filter (check : string → bool) (files : list string) :
  flagged files (map check files) = List.filter check files.
Proof.
  unfold flagged. induction files as [|f files IH]; simpl; [done|].
  destruct (check f); simpl; by rewrite IH.
Qed.

(** X8: the validity check and the registration agree.  The names that
    [file_validity_check] flags as invalid are exactly names
    [register_upload] ignores: registering only the names flagged valid
    leaves the same database as registering all submitted names. *)
Theorem validity_check_agrees_with_registration
    (db : ExperimentDb) (aid : Z) (files : list string) (is_valid : list bool) :
  file_validity_check get_microscope_type_regex default_message db
    (FilesList (map Some files)) = Ok is_valid →
  length is_valid = length files ∧
  (register_upload get_microscope_type_regex secure_filename db aid
     (flagged files is_valid)).2 =
  (register_upload get_microscope_type_regex secure_filename db aid files).2.
Proof.
  unfold file_validity_check. rewrite !register_upload_snd.
  destruct (get_microscope_type_regex (microscope_type db)) as [ir mr].
  rewrite for_each_check_file. intros [= <-].
  split; [by rewrite length_map|].
  rewrite flagged_filter.
  destruct (get_acquisition db aid) as [acq|]; [|done].
  cbn [fst snd]. unfold new_files, check_file.
  rewrite !filter_filter_impl; [done| |].
  - intros f Hf. apply andb_true_iff in Hf as [-> _]. done.
  - intros f Hf. apply andb_true_iff in Hf as [-> _]. apply orb_true_r.
Qed.

Lemma filter_by_files_of (fn : string) (acq : Acquisition) (table : list MicroscopeFile) :
  filter_by fn (acquisition_pk acq) table = [] → str_in fn (map name (files_of acq table)) = false.
Proof.
  intros H. apply not_true_iff_false. rewrite str_in_spec, list_elem_of_In, in_map_iff.
  intros (r & Hname & Hr). apply filter_In in Hr as [Hr Hpk].
  assert (Hin : In r (filter_by fn (acquisition_pk acq) table)).
  { apply filter_In. split; [done|]. rewrite Hpk, andb_true_r. by apply String.eqb_eq. }
  by rewrite H in Hin.
Qed.

Lemma filter_by_new_files_absent (regex : string → bool) (registered : list string)
    (acq : Acquisition) (files : list string) (fn : string) (aid : Z) :
  ¬ In fn (map secure_filename files) →
  filter_by fn aid (new_files secure_filename regex registered acq files) = [].
Proof.
  intros Hnot. apply filter_none. intros r Hr. unfold new_files in Hr.
  apply in_map_iff in Hr as (f & <- & Hf). apply filter_In in Hf as [Hf _]. simpl.
  apply andb_false_iff. left. apply String.eqb_neq. intros Heq. apply Hnot.
  rewrite <- Heq. by apply in_map.
Qed.

(** Among submitted names with distinct sanitized names, the query for one
    of them finds its new record and nothing else. *)
Lemma filter_by_new_files (regex : string → bool) (registered : list string)
    (acq : Acquisition) (files : list string) (f : string) :
  NoDup (map secure_filename files) → In f files →
  filter_by (secure_filename f) (acquisition_pk acq)
    (new_files secure_filename regex registered acq files) =
  if regex f && negb (str_in (secure_filename f) registered)
  then [mkMicroscopeFile (secure_filename f) (acquisition_pk acq) WAITING] else [].
Proof.
  induction files as [|g files IH]; simpl; [done|].
  rewrite NoDup_cons, list_elem_of_In. intros [Hg Hnodup] [->|Hf].
  - pose proof (filter_by_new_files_absent regex registered acq files _
                  (acquisition_pk acq) Hg) as Hrest.
    unfold new_files in *. simpl.
    destruct (regex f && negb (str_in (secure_filename f) registered)); simpl.
    + by rewrite String.eqb_refl, Z.eqb_refl, Hrest.
    + exact Hrest.
  - specialize (IH Hnodup Hf). unfold new_files in *. simpl.
    destruct (regex g && negb (str_in (secure_filename g) registered)); simpl; [|exact IH].
    destruct (String.eqb_spec (secure_filename g) (secure_filename f)) as [Heq|Hne]; simpl.
    + exfalso. apply Hg. rewrite Heq. by apply in_map.
    + exact IH.
Qed.

(** X9: registration followed by upload goes through.  After
    [register_upload] answered [ok] for names with distinct sanitized names,
    a submitted name that matches one of the two patterns and was not
    registered before can be uploaded to the (not yet complete) acquisition:
    [upload_file] answers [ok] when the save succeeds, and the one record of
    that name, in the image table if the name matches the image pattern and
    in the metadata table otherwise, is then [COMPLETE]. *)
Theorem registered_file_can_be_uploaded
    (db db' : ExperimentDb) (aid : Z) (acq : Acquisition) (files : list string) (f : string) :
  let regex := get_microscope_type_regex (microscope_type db) in
  let out := upload_file secure_filename db' aid (Some (mkFileStorage f None)) in
  register_upload get_microscope_type_regex secure_filename db aid files = (Ok "ok", db') →
  get_acquisition db aid = Some acq →
  acquisition_status acq ≠ COMPLETE →
  NoDup (map secure_filename files) →
  In f files →
  regex.1 f || regex.2 f = true →
  registrations (secure_filename f) aid (image_table db) = 0%nat →
  registrations (secure_filename f) aid (metadata_table db) = 0%nat →
  str_truthy f = true →
  out.1 = Ok "ok" ∧
  filter_by (secure_filename f) aid
    (if regex.1 f then image_table out.2 else metadata_table out.2) =
  [mkMicroscopeFile (secure_filename f) aid COMPLETE].
Proof.
  intros regex out Hreg Hacq Hst Hnodup Hf Hmatch Himg Hmeta Htruthy.
  pose proof (get_acquisition_pk _ _ _ Hacq) as Hpk.
  pose proof (f_equal snd Hreg) as Hdb. rewrite register_upload_snd, Hacq in Hdb.
  simpl in Hdb. fold regex in Hdb.
  apply length_zero_iff_nil in Himg, Hmeta.
  assert (Hi : filter_by (secure_filename f) aid (image_table db') =
               if regex.1 f then [mkMicroscopeFile (secure_filename f) aid WAITING] else []).
  { rewrite <- Hdb. cbn [image_table]. rewrite filter_by_app, Himg. simpl.
    rewrite <- Hpk in *. rewrite filter_by_new_files by done.
    rewrite filter_by_files_of by done. by rewrite andb_true_r. }
  assert (Hm : filter_by (secure_filename f) aid (metadata_table db') =
               if regex.2 f then [mkMicroscopeFile (secure_filename f) aid WAITING] else []).
  { rewrite <- Hdb. cbn [metadata_table]. rewrite filter_by_app, Hmeta. simpl.
    rewrite <- Hpk in *. rewrite filter_by_new_files by done.
    rewrite filter_by_files_of by done. by rewrite andb_true_r. }
  assert (Hacq' : get_acquisition db' aid = Some acq).
  { rewrite <- Hdb. exact Hacq. }
  subst out. unfold upload_file, upload_target. cbn [filename save_error].
  rewrite Htruthy, Hacq'. simpl. rewrite bool_decide_eq_false_2 by done.
  rewrite Hi, Hm.
  destruct (regex.1 f) eqn:Hir; simpl.
  - destruct (regex.2 f); simpl; (split; [done|]);
      by rewrite !filter_by_set_status, Hi.
  - simpl in Hmatch. rewrite Hmatch in Hm |- *. simpl. split; [done|].
    by rewrite !filter_by_set_status, Hm.
Qed.

End UploadMoreProofs.

Section UploadMoreWitnesses.
Import Py Upload UploadValidity.

Lemma upload_file_stores_a_file_once_witness :
  let f := mkFileStorage "a.tif" None in
  let db' := (upload_file id sample_db 7 (Some f)).2 in
  (upload_file id db' 7 (Some f)).2 = db' ∧
  ((upload_file id db' 7 (Some f)).1 = Ok "Acquisition complete" ∨
   (upload_file id db' 7 (Some f)).1 = Ok "File already uploaded").
Proof.
  apply (upload_file_stores_a_file_once id sample_db
           (upload_file id sample_db 7 (Some (mkFileStorage "a.tif" None))).2
           (upload_file id sample_db 7 (Some (mkFileStorage "a.tif" None))).2
           7 (mkFileStorage "a.tif" None) (mkFileStorage "a.tif" None));
    try reflexivity.
  by exists (mkAcquisition 7 WAITING).
Defined.

Lemma register_upload_idempotent_witness :
  let db' := (register_upload sample_regex id sample_db 7 sample_files).2 in
  register_upload sample_regex id db' 7 sample_files = (Ok "ok", db').
Proof.
  apply (register_upload_idempotent sample_regex id sample_db
           (register_upload sample_regex id sample_db 7 sample_files).2 7 sample_files).
  reflexivity.
Defined.

Lemma validity_check_agrees_with_registration_witness :
  length [true; true; true; false] = length sample_files ∧
  (register_upload sample_regex id sample_db 7
     (flagged sample_files [true; true; true; false])).2 =
  (register_upload sample_regex id sample_db 7 sample_files).2.
Proof.
  apply (validity_check_agrees_with_registration sample_regex id "Malformed request"
           sample_db 7 sample_files [true; true; true; false]).
  reflexivity.
Defined.

Lemma registered_file_can_be_uploaded_witness :
  let db' := (register_upload sample_regex id sample_db 7 sample_files).2 in
  let out := upload_file id db' 7 (Some (mkFileStorage "b.tif" None)) in
  out.1 = Ok "ok" ∧
  filter_by "b.tif" 7 (image_table out.2) = [mkMicroscopeFile "b.tif" 7 COMPLETE].
Proof.
  apply (registered_file_can_be_uploaded sample_regex id sample_db
           (register_upload sample_regex id sample_db 7 sample_files).2
           7 (mkAcquisition 7 WAITING) sample_files "b.tif");
    try reflexivity.
  - discriminate.
  - apply (bool_decide_unpack _). vm_compute. reflexivity.
  - simpl. tauto.
Defined.

End UploadMoreWitnesses.

(* ================================================================== *)
(** * Reading labels back: proofs                                      *)
(* ================================================================== *)

Section LabelQueriesProofs.
Import Py ToolResult LabelQueries.

Variable value : Type.
Variable feature_values_query : attr → list Z → result (list (Z * value)).

Lemma dict_fold_lookup {K V : Type} `{Countable K} (l : list (K * V)) (m : gmap K V) (k : K) :
  match (fold_left (λ m kv, <[kv.1 := kv.2]> m) l m) !! k with
  | Some v => ((k, v) ∈ l) ∨ m !! k = Some v
  | None => (k ∉ (fst <$> l)) ∧ m !! k = None
  end.
Proof.
  revert m. induction l as [|[k' v'] l IH]; intros m; simpl.
  - destruct (m !! k) eqn:Hk; [by right|]. split; [apply not_elem_of_nil|done].
  - specialize (IH (<[k' := v']> m)).
    destruct ((fold_left _ l _) !! k) as [v|].
    + destruct IH as [IH|IH]; [left; by right|].
      destruct (decide (k' = k)) as [->|Hne].
      * rewrite lookup_insert_eq in IH. injection IH as ->. left. by left.
      * rewrite lookup_insert_ne in IH by done. by right.
    + destruct IH as [IH1 IH2].
      destruct (decide (k' = k)) as [->|Hne].
      * by rewrite lookup_insert_eq in IH2.
      * rewrite lookup_insert_ne in IH2 by done. split; [|done].
        rewrite not_elem_of_cons. split; [congruence|done].
Qed.

Lemma NoDup_fst_functional {K V : Type} (l : list (K * V)) (k : K) (v v' : V) :
  NoDup (fst <$> l) → (k, v) ∈ l → (k, v') ∈ l → v = v'.
Proof.
  induction l as [|[k0 v0] l IH]; simpl; intros Hnd Hv Hv'.
  - by apply elem_of_nil in Hv.
  - apply NoDup_cons in Hnd as [Hk0 Hnd].
    apply elem_of_cons in Hv as [Hv|Hv], Hv' as [Hv'|Hv'].
    + congruence.
    + injection Hv as -> ->. exfalso. apply Hk0.
      apply list_elem_of_fmap. by exists (k0, v').
    + injection Hv' as -> ->. exfalso. apply Hk0.
      apply list_elem_of_fmap. by exists (k0, v).
    + by apply IH.
Qed.

(** With distinct keys, [dict] holds exactly the given pairs. *)
Lemma dict_lookup_NoDup {K V : Type} `{Countable K} (l : list (K * V)) (k : K) (v : V) :
  NoDup (fst <$> l) → dict l !! k = Some v ↔ (k, v) ∈ l.
Proof.
  intros Hnd. unfold dict. pose proof (dict_fold_lookup l ∅ k) as Hl.
  destruct (fold_left _ l ∅ !! k) as [v'|] eqn:Hk; split.
  - intros [= ->]. destruct Hl as [Hl|Hl]; [done|]. by rewrite lookup_empty in Hl.
  - intros Hin. destruct Hl as [Hl|Hl]; [|by rewrite lookup_empty in Hl].
    f_equal. by eapply NoDup_fst_functional.
  - discriminate.
  - intros Hin. destruct Hl as [Hl _]. exfalso. apply Hl.
    apply list_elem_of_fmap. by exists (k, v).
Qed.

Lemma NoDup_fst_filter {K V : Type} (p : K * V → bool) (l : list (K * V)) :
  NoDup (fst <$> l) → NoDup (fst <$> List.filter p l).
Proof.
  induction l as [|kv l IH]; simpl; [done|].
  rewrite NoDup_cons. intros [Hkv Hnd].
  destruct (p kv); simpl; [|by apply IH].
  apply NoDup_cons. split; [|by apply IH].
  intros Hin. apply Hkv. apply list_elem_of_fmap in Hin as (x & Hx & Hin).
  apply list_elem_of_fmap. exists x. split; [done|].
  apply list_elem_of_In. apply list_elem_of_In, filter_In in Hin. tauto.
Qed.

(** The rows a constructor inserts for [labels], whether or not [labels] is
    empty. *)
Lemma LabelLayer_init_rows (cls : string) (mt : Z) (labels : gmap Z label)
    (attrs : gmap string attr) (db : Session) :
  label_layer_labels (LabelLayer_init cls mt labels attrs db).2 =
  label_layer_labels db ++
  map (λ kv, mkLabelLayerLabel kv.2 kv.1 (next_id (label_layers db))) (map_to_list labels).
Proof.
  unfold LabelLayer_init. cbn [snd label_layer_labels layer_id].
  case_bool_decide as Hl; [|done]. subst labels. by rewrite map_to_list_empty.
Qed.

Lemma session_wf_layer_id (db : Session) (l : LabelLayer) :
  session_wf db → l ∈ label_layers db → 1 ≤ layer_id l < next_id (label_layers db).
Proof.
  intros (Hkeys & _) Hl. apply list_elem_of_lookup in Hl as [i Hi].
  rewrite (Hkeys i l Hi). apply lookup_lt_Some in Hi. unfold next_id. lia.
Qed.

(** In a well-formed session no label row refers to the key the next layer
    gets. *)
Lemma session_wf_fresh (db : Session) (r : LabelLayerLabel) :
  session_wf db → r ∈ label_layer_labels db →
  label_layer_id r ≠ next_id (label_layers db).
Proof.
  intros Hwf Hr. pose proof Hwf as (_ & _ & Hrows & _).
  destruct (Hrows r Hr) as (l & Hl & <-).
  pose proof (session_wf_layer_id db l Hwf Hl). lia.
Qed.

Lemma selected_new_rows (ids : list Z) (lid : Z) (rows : list (Z * label)) :
  map (λ r, (mapobject_id r, label_of r))
    (List.filter (λ r, bool_decide (mapobject_id r ∈ ids) && Z.eqb (label_layer_id r) lid)
       (map (λ kv, mkLabelLayerLabel kv.2 kv.1 lid) rows)) =
  List.filter (λ kv, bool_decide (kv.1 ∈ ids)) rows.
Proof.
  induction rows as [|[k v] rows IH]; simpl; [done|].
  rewrite Z.eqb_refl, andb_true_r. destruct (bool_decide (k ∈ ids)); simpl; by rewrite IH.
Qed.

Lemma dict_selected_labels (ids : list Z) (labels : gmap Z label) :
  dict (List.filter (λ kv, bool_decide (kv.1 ∈ ids)) (map_to_list labels)) =
  filter (λ kv : Z * label, kv.1 ∈ ids) labels.
Proof.
  apply map_eq. intros k. apply option_eq. intros v.
  rewrite dict_lookup_NoDup by apply NoDup_fst_filter, NoDup_fst_map_to_list.
  rewrite list_elem_of_In, filter_In, <- list_elem_of_In, elem_of_map_to_list.
  rewrite map_lookup_filter_Some, bool_decide_eq_true. done.
Qed.

(** Reading back the layer that [LabelLayer.__init__] just made. *)
Lemma LabelLayer_init_round_trip (cls : string) (mt : Z) (labels : gmap Z label)
    (attrs : gmap string attr) (db : Session) (ids : list Z) :
  cls ≠ "HeatmapLabelLayer" → session_wf db →
  get_labels_for_objects value feature_values_query
    (LabelLayer_init cls mt labels attrs db).1 ids
    (LabelLayer_init cls mt labels attrs db).2 =
  Ok (Labels (filter (λ kv : Z * label, kv.1 ∈ ids) labels)).
Proof.
  intros Hcls Hwf. unfold get_labels_for_objects.
  rewrite LabelLayer_init_rows. cbn [LabelLayer_init fst type layer_id].
  apply String.eqb_neq in Hcls. rewrite Hcls.
  rewrite List.filter_app, filter_none, app_nil_l.
  - by rewrite selected_new_rows, dict_selected_labels.
  - intros r Hr. apply andb_false_iff. right. apply Z.eqb_neq.
    apply session_wf_fresh; [done|]. by apply list_elem_of_In.
Qed.

(** X10: labels written by a constructor are read back by
    [get_labels_for_objects].  For every layer class other than the heatmap
    one, in a session whose keys are consistent, the layer a constructor
    returns gives back, for any list of mapobject ids, exactly the entries of
    the [labels] argument whose mapobject id is in the list: nothing is
    lost, nothing of another layer is mixed in. *)
Theorem constructed_layer_returns_its_labels
    (cls : string) (mt : Z) (labels : gmap Z label) (color_map : list (label * string))
    (attrs : gmap string attr) (db : Session) (ids : list Z) (out : LabelLayer * Session) :
  cls ≠ "HeatmapLabelLayer" → session_wf db →
  out ∈ [LabelLayer_init cls mt labels attrs db;
         ScalarLabelLayer_init cls mt labels attrs db;
         SupervisedClassifierLabelLayer_init cls mt labels color_map attrs db;
         ContinuousLabelLayer_init cls mt labels attrs db] →
  get_labels_for_objects value feature_values_query out.1 ids out.2 =
  Ok (Labels (filter (λ kv : Z * label, kv.1 ∈ ids) labels)).
Proof.
  intros Hcls Hwf Hout.
  repeat (apply elem_of_cons in Hout as [->|Hout]);
    [| | | | by apply elem_of_nil in Hout];
    by apply LabelLayer_init_round_trip.
Qed.

(** X11: a heatmap layer that was constructed never fails on its attribute
    lookup.  When [HeatmapLabelLayer.__init__] returns, the attributes hold a
    ['feature_id'], and [get_labels_for_objects] on the new layer does not
    raise [KeyError]: it is the dictionary of the rows of the feature value
    query for that feature id (or that query's own exception), and no row of
    the label table is read or written. *)
Theorem heatmap_layer_reads_feature_values
    (mt : Z) (attrs : gmap string attr) (db db' : Session) (self : LabelLayer) (ids : list Z) :
  HeatmapLabelLayer_init mt attrs db = Ok (self, db') →
  ∃ feature_id,
    attrs !! "feature_id" = Some feature_id ∧
    get_labels_for_objects value feature_values_query self ids db' =
      (rows ← feature_values_query feature_id ids; Ok (FeatureValues (dict rows))) ∧
    label_layer_labels db' = label_layer_labels db.
Proof.
  unfold HeatmapLabelLayer_init. case_bool_decide as Hfid; simpl; [|discriminate].
  destruct Hfid as [fid Hfid]. intros [= <- <-]. exists fid. split; [done|].
  unfold get_labels_for_objects. cbn [type attributes]. rewrite Hfid. simpl.
  split; [done|]. by rewrite app_nil_r.
Qed.

Lemma session_wf_empty : session_wf empty_session.
Proof.
  unfold session_wf, empty_session. simpl.
  repeat split; intros; try done;
    match goal with H : _ ∈ [] |- _ => by apply elem_of_nil in H end.
Qed.

Lemma LabelLayer_init_wf (cls : string) (mt : Z) (labels : gmap Z label)
    (attrs : gmap string attr) (db : Session) :
  session_wf db → session_wf (LabelLayer_init cls mt labels attrs db).2.
Proof.
  intros (Hlayers & Hresults & Hrows & Hlinks & Hplots).
  unfold session_wf. rewrite LabelLayer_init_rows.
  cbn [LabelLayer_init snd label_layers results plots].
  split; [|split; [done|split; [|split; [|done]]]].
  - intros i l Hi. apply lookup_app_Some in Hi as [Hi|[Hlen Hi]]; [by apply Hlayers|].
    apply list_lookup_singleton_Some in Hi as [Hi <-]. simpl. unfold next_id. lia.
  - intros r Hr. apply elem_of_app in Hr as [Hr|Hr].
    + destruct (Hrows r Hr) as (l & Hl & Hid). exists l. split; [|done].
      apply elem_of_app. by left.
    + apply list_elem_of_In, in_map_iff in Hr as (kv & <- & _). eexists. split.
      * apply elem_of_app. right. apply list_elem_of_here.
      * done.
  - intros l rid Hl Hrid. apply elem_of_app in Hl as [Hl|Hl]; [by eapply Hlinks|].
    apply list_elem_of_singleton in Hl as ->. discriminate.
Qed.

Lemma Result_init_wf (tool_session : ToolSession) (layer : LabelLayer) (name : option string)
    (new_plots : list Plot) (db : Session) :
  session_wf db → session_wf (Result_init tool_session layer name new_plots db).2.
Proof.
  intros (Hlayers & Hresults & Hrows & Hlinks & Hplots).
  unfold session_wf, Result_init.
  cbn [snd label_layers results plots label_layer_labels result_pk].
  unfold set_result_id.
  split; [|split; [|split; [|split]]].
  - intros i l Hi.
    change (map ?f ?t) with (f <$> t) in Hi. rewrite list_lookup_fmap in Hi.
    destruct (label_layers db !! i) as [l0|] eqn:Hl0; [|discriminate].
    injection Hi as <-. specialize (Hlayers i l0 Hl0).
    by destruct (Z.eqb (layer_id l0) (layer_id layer)).
  - intros i r Hi. apply lookup_app_Some in Hi as [Hi|[Hlen Hi]]; [by apply Hresults|].
    apply list_lookup_singleton_Some in Hi as [Hi <-]. simpl. unfold next_id. lia.
  - intros r Hr. destruct (Hrows r Hr) as (l & Hl & Hid).
    eexists. split.
    + apply list_elem_of_In, in_map. apply list_elem_of_In, Hl.
    + by destruct (Z.eqb (layer_id l) (layer_id layer)).
  - intros l rid Hl Hrid. apply list_elem_of_In, in_map_iff in Hl as (l0 & <- & Hl0).
    destruct (Z.eqb (layer_id l0) (layer_id layer)).
    + injection Hrid as <-. eexists. split; [apply elem_of_app; right; apply list_elem_of_here|done].
    + destruct (Hlinks l0 rid) as (r & Hr & Hpk); [by apply list_elem_of_In|done|].
      exists r. split; [apply elem_of_app; by left|done].
  - intros p rid Hp Hrid. apply elem_of_app in Hp as [Hp|Hp].
    + destruct (Hplots p rid Hp Hrid) as (r & Hr & Hpk).
      exists r. split; [apply elem_of_app; by left|done].
    + apply list_elem_of_In, in_map_iff in Hp as (p0 & <- & _). injection Hrid as <-.
      eexists. split; [apply elem_of_app; right; apply list_elem_of_here|done].
Qed.

(** X12: the constructors keep every reference valid.  In a session where
    each label row refers to an existing layer and each layer and plot that
    carries a result id refers to an existing result, the same holds after
    any of the layer constructors and after [Result.__init__], for whatever
    layer object and plots it is given. *)
Theorem constructors_keep_references_valid (db : Session) :
  session_wf db →
  (∀ cls mt labels color_map attrs out,
     out ∈ [LabelLayer_init cls mt labels attrs db;
            ScalarLabelLayer_init cls mt labels attrs db;
            SupervisedClassifierLabelLayer_init cls mt labels color_map attrs db;
            ContinuousLabelLayer_init cls mt labels attrs db] →
     session_wf out.2) ∧
  (∀ mt attrs out, HeatmapLabelLayer_init mt attrs db = Ok out → session_wf out.2) ∧
  (∀ tool_session layer name new_plots,
     session_wf (Result_init tool_session layer name new_plots db).2).
Proof.
  intros Hwf. split; [|split].
  - intros cls mt labels color_map attrs out Hout.
    repeat (apply elem_of_cons in Hout as [->|Hout]);
      [| | | | by apply elem_of_nil in Hout];
      by apply LabelLayer_init_wf.
  - intros mt attrs out. unfold HeatmapLabelLayer_init.
    case_bool_decide; simpl; [|discriminate]. intros [= <-]. by apply LabelLayer_init_wf.
  - intros. by apply Result_init_wf.
Qed.

(** X13: making a layer or a result does not change what the layers that
    exist return.  For a layer of a consistent session,
    [get_labels_for_objects] gives the same answer before and after any of
    the constructors ran. *)
Theorem existing_layers_keep_their_labels (db : Session) (other : LabelLayer) (ids : list Z) :
  session_wf db → other ∈ label_layers db →
  (∀ cls mt labels color_map attrs out,
     out ∈ [LabelLayer_init cls mt labels attrs db;
            ScalarLabelLayer_init cls mt labels attrs db;
            SupervisedClassifierLabelLayer_init cls mt labels color_map attrs db;
            ContinuousLabelLayer_init cls mt labels attrs db] →
     get_labels_for_objects value feature_values_query other ids out.2 =
     get_labels_for_objects value feature_values_query other ids db) ∧
  (∀ mt attrs out, HeatmapLabelLayer_init mt attrs db = Ok out →
     get_labels_for_objects value feature_values_query other ids out.2 =
     get_labels_for_objects value feature_values_query other ids db) ∧
  (∀ tool_session layer name new_plots,
     get_labels_for_objects value feature_values_query other ids
       (Result_init tool_session layer name new_plots db).2 =
     get_labels_for_objects value feature_values_query other ids db).
Proof.
  intros Hwf Hother.
  assert (Hinit : ∀ cls mt labels attrs,
    get_labels_for_objects value feature_values_query other ids
      (LabelLayer_init cls mt labels attrs db).2 =
    get_labels_for_objects value feature_values_query other ids db).
  { intros. unfold get_labels_for_objects. rewrite LabelLayer_init_rows.
    destruct (String.eqb (type other) "HeatmapLabelLayer"); [done|].
    rewrite List.filter_app, (filter_none _ (map _ _)), app_nil_r; [done|].
    intros r Hr. apply in_map_iff in Hr as (kv & <- & _). simpl.
    apply andb_false_iff. right. apply Z.eqb_neq.
    pose proof (session_wf_layer_id db other Hwf Hother). lia. }
  split; [|split].
  - intros cls mt labels color_map attrs out Hout.
    repeat (apply elem_of_cons in Hout as [->|Hout]);
      [| | | | by apply elem_of_nil in Hout]; apply Hinit.
  - intros mt attrs out. unfold HeatmapLabelLayer_init.
    case_bool_decide; simpl; [|discriminate]. intros [= <-]. apply Hinit.
  - done.
Qed.

End LabelQueriesProofs.

Section LabelQueriesWitnesses.
Import Py ToolResult LabelQueries.

Lemma constructed_layer_returns_its_labels_witness :
  let out := ScalarLabelLayer_init "ScalarLabelLayer" 1 sample_labels ∅ empty_session in
  get_labels_for_objects Z sample_query out.1 [1] out.2 =
  Ok (Labels (filter (λ kv : Z * label, kv.1 ∈ [1]) sample_labels)).
Proof.
  apply (constructed_layer_returns_its_labels Z sample_query
           "ScalarLabelLayer" 1 sample_labels [] ∅ empty_session [1]).
  - discriminate.
  - apply session_wf_empty.
  - apply list_elem_of_further, list_elem_of_here.
Defined.

Lemma heatmap_layer_reads_feature_values_witness :
  let out := LabelLayer_init "HeatmapLabelLayer" 1 ∅ {[ "feature_id" := AInt 3 ]} empty_session in
  ∃ feature_id,
    ({[ "feature_id" := AInt 3 ]} : gmap string attr) !! "feature_id" = Some feature_id ∧
    get_labels_for_objects Z sample_query out.1 [1] out.2 =
      (rows ← sample_query feature_id [1]; Ok (FeatureValues (dict rows))) ∧
    label_layer_labels out.2 = label_layer_labels empty_session.
Proof.
  apply (heatmap_layer_reads_feature_values Z sample_query 1
           {[ "feature_id" := AInt 3 ]} empty_session).
  reflexivity.
Defined.

Lemma constructors_keep_references_valid_witness :
  (∀ cls mt labels color_map attrs out,
     out ∈ [LabelLayer_init cls mt labels attrs empty_session;
            ScalarLabelLayer_init cls mt labels attrs empty_session;
            SupervisedClassifierLabelLayer_init cls mt labels color_map attrs empty_session;
            ContinuousLabelLayer_init cls mt labels attrs empty_session] →
     session_wf out.2) ∧
  (∀ mt attrs out, HeatmapLabelLayer_init mt attrs empty_session = Ok out → session_wf out.2) ∧
  (∀ tool_session layer name new_plots,
     session_wf (Result_init tool_session layer name new_plots empty_session).2).
Proof.
  apply (constructors_keep_references_valid empty_session). apply session_wf_empty.
Defined.

Lemma existing_layers_keep_their_labels_witness :
  let first := LabelLayer_init "ContinuousLabelLayer" 1 sample_labels ∅ empty_session in
  get_labels_for_objects Z sample_query first.1 [1; 2]
    (Result_init (mkToolSession 1 "svm") first.1 None [] first.2).2 =
  get_labels_for_objects Z sample_query first.1 [1; 2] first.2.
Proof.
  apply (proj2 (proj2 (existing_layers_keep_their_labels Z sample_query
           (LabelLayer_init "ContinuousLabelLayer" 1 sample_labels ∅ empty_session).2
           (LabelLayer_init "ContinuousLabelLayer" 1 sample_labels ∅ empty_session).1
           [1; 2]
           (LabelLayer_init_wf _ _ _ _ _ session_wf_empty)
           (list_elem_of_here _ _)))).
Defined.

End LabelQueriesWitnesses.

(* ================================================================== *)
(** * Projects, module sources and job killing: proofs                 *)
(* ================================================================== *)

Section JtuiRequestsProofs.
Import Py Jtui JtuiRequests.

(** *** [os.path] *)

Lemma rfind_snoc (c x : ascii) (l : list ascii) :
  rfind c (l ++ [x]) = if Ascii.eqb x c then Z.of_nat (length l) else rfind c l.
Proof. unfold rfind. rewrite rfind_from_app. simpl. by rewrite Z.add_0_l. Qed.

(** [rfind] gives [-1] when the character is absent and the position of its
    last occurrence otherwise. *)
Lemma rfind_spec (c : ascii) (l : list ascii) :
  (rfind c l = -1 ∧ c ∉ l) ∨
  (∃ l1 l2, l = l1 ++ c :: l2 ∧ (c ∉ l2) ∧ rfind c l = Z.of_nat (length l1)).
Proof.
  induction l as [|x l IH] using rev_ind.
  - left. split; [done|apply not_elem_of_nil].
  - rewrite rfind_snoc. destruct (Ascii.eqb_spec x c) as [->|Hne].
    + right. exists l, []. split; [done|]. split; [apply not_elem_of_nil|done].
    + destruct IH as [[H1 H2]|(l1 & l2 & -> & H2 & H3)].
      * left. split; [done|]. rewrite elem_of_app, list_elem_of_singleton.
        intros [?|?]; [done|congruence].
      * right. exists l1, (l2 ++ [x]). rewrite <- app_assoc. split; [done|].
        split; [|done]. rewrite elem_of_app, list_elem_of_singleton.
        intros [?|?]; [done|congruence].
Qed.

(** A basename holds no slash. *)
Lemma basename_no_slash (p : string) : slash ∉ chars (os_path_basename p).
Proof.
  unfold os_path_basename. rewrite chars_str.
  destruct (rfind_spec slash (chars p)) as [[H1 H2]|(l1 & l2 & Heq & H2 & H3)].
  - by rewrite H1.
  - rewrite H3, Heq.
    replace (Z.to_nat (Z.of_nat (length l1) + 1)) with (length (l1 ++ [slash]))
      by (rewrite length_app; simpl; lia).
    by rewrite (cons_middle slash l1 l2), app_assoc, drop_app_length.
Qed.

(** The last slash of a path that is a directory prefix (empty, or ending in
    a slash) followed by a name without slash. *)
Lemma rfind_sep (pre rest : list ascii) :
  pre = [] ∨ (∃ d, pre = d ++ [slash]) → slash ∉ rest →
  rfind slash (pre ++ rest) = Z.of_nat (length pre) - 1.
Proof.
  intros [->|[d ->]] Hrest.
  - unfold rfind. simpl. by rewrite rfind_from_absent.
  - rewrite <- app_assoc. simpl. rewrite rfind_last by done.
    rewrite length_app. simpl. lia.
Qed.

Lemma basename_app (pre rest : list ascii) :
  pre = [] ∨ (∃ d, pre = d ++ [slash]) → slash ∉ rest →
  os_path_basename (str (pre ++ rest)) = str rest.
Proof.
  intros Hpre Hrest. unfold os_path_basename. rewrite chars_str, rfind_sep by done.
  replace (Z.to_nat (Z.of_nat (length pre) - 1 + 1)) with (length pre) by lia.
  by rewrite drop_app_length.
Qed.

(** [splitext] splits at the last dot when the name before it is more than
    dots. *)
Lemma splitext_split (pre b e : list ascii) :
  pre = [] ∨ (∃ d, pre = d ++ [slash]) →
  slash ∉ b → (∃ c, c ∈ b ∧ c ≠ dot) → dot ∉ e → slash ∉ e →
  os_path_splitext (str (pre ++ b ++ dot :: e)) = (str (pre ++ b), str (dot :: e)).
Proof.
  intros Hpre Hb (c & Hc & Hcdot) He Hes. unfold os_path_splitext. rewrite chars_str.
  rewrite rfind_sep; [|done|].
  2:{ rewrite elem_of_app, elem_of_cons. intros [?|[?|?]]; done. }
  rewrite (app_assoc pre b), rfind_last by done.
  destruct (Z.ltb_spec (Z.of_nat (length pre) - 1) (Z.of_nat (length (pre ++ b))))
    as [_|Hge]; [|rewrite length_app in Hge; lia].
  rewrite Nat2Z.id, take_app_length, drop_app_length.
  replace (Z.to_nat (Z.of_nat (length pre) - 1 + 1)) with (length pre) by lia.
  rewrite drop_app_length.
  assert (Hex : existsb (λ c, negb (Ascii.eqb c dot)) b = true).
  { apply existsb_exists. exists c. split; [by apply list_elem_of_In|].
    apply negb_true_iff. by apply Ascii.eqb_neq. }
  by rewrite Hex.
Qed.

(** The module name read off a handles path. *)
Lemma module_name_of_handles (pre n e1 e2 : string) :
  pre = "" ∨ (∃ d, pre = d +:+ "/") →
  slash ∉ chars n → (∃ c, c ∈ chars n ∧ c ≠ dot) →
  dot ∉ chars e1 → slash ∉ chars e1 → dot ∉ chars e2 → slash ∉ chars e2 →
  (os_path_splitext
     (os_path_splitext
        (os_path_basename (pre +:+ n +:+ "." +:+ e1 +:+ "." +:+ e2))).1).1 = n.
Proof.
  intros Hpre Hn Hnd He1 He1s He2 He2s.
  assert (Hpre' : chars pre = [] ∨ ∃ d, chars pre = d ++ [slash]).
  { destruct Hpre as [->|[d ->]]; [by left|]. right. exists (chars d). by rewrite chars_app. }
  rewrite <- (str_chars (pre +:+ _)), !chars_app.
  change (chars ".") with [dot]. simpl.
  rewrite basename_app; [|done|].
  2:{ rewrite elem_of_app, elem_of_cons, elem_of_app, elem_of_cons.
      intros [?|[?|[?|[?|?]]]]; done. }
  replace (chars n ++ dot :: chars e1 ++ dot :: chars e2)
    with ([] ++ (chars n ++ dot :: chars e1) ++ dot :: chars e2)
    by (simpl; by rewrite <- app_assoc).
  rewrite (splitext_split [] (chars n ++ dot :: chars e1) (chars e2)); [|by left| | |done|done].
  - cbn [fst app]. change (chars n ++ dot :: chars e1) with ([] ++ chars n ++ dot :: chars e1).
    rewrite (splitext_split [] (chars n) (chars e1)) by (done || by left).
    cbn [fst app]. apply str_chars.
  - rewrite elem_of_app, elem_of_cons. intros [?|[?|?]]; done.
  - destruct Hnd as (c & Hc & Hcd). exists c. split; [|done]. apply elem_of_app. by left.
Qed.

(** X14: [list_module_names] strips the directory and two extensions.  For a
    pipeline whose active entries have handles paths of the form
    directory prefix, name, dot, extension, dot, extension (as in
    [handles/segment.handles.yaml]), where the name has no slash and is not
    made of dots only, the result is the list of those names, in pipeline
    order; inactive entries, whatever their path, leave no trace. *)
Theorem list_module_names_strips_two_extensions
    (pipeline : list PipelineModule) (names : list string) :
  Forall2
    (λ m n, ∃ pre e1 e2,
       handles m = pre +:+ n +:+ "." +:+ e1 +:+ "." +:+ e2 ∧
       (pre = "" ∨ ∃ d, pre = d +:+ "/") ∧
       (slash ∉ chars n) ∧ (∃ c, c ∈ chars n ∧ c ≠ dot) ∧
       (dot ∉ chars e1) ∧ (slash ∉ chars e1) ∧ (dot ∉ chars e2) ∧ (slash ∉ chars e2))
    (List.filter active pipeline) names →
  list_module_names pipeline = names.
Proof.
  unfold list_module_names. generalize (List.filter active pipeline). intros ms H.
  induction H as [|m n ms ns (pre & e1 & e2 & Hm & Hpre & Hn & Hnd & He1 & He1s & He2 & He2s) _ IH];
    simpl; [done|].
  by rewrite Hm, module_name_of_handles, IH.
Qed.

Lemma get_module_source_code_none (module_files : list string) (module_filename : string) :
  (∀ g, g ∈ module_files → os_path_basename g ≠ module_filename) →
  get_module_source_code module_files module_filename = Raises IndexError.
Proof.
  intros Hall. unfold get_module_source_code. rewrite filter_none; [done|].
  intros g Hg. apply String.eqb_neq, Hall. by apply list_elem_of_In.
Qed.

(** X15: [get_module_source_code] only ever hands a known module file to
    [send_file].  The path sent is the first of the module files whose
    basename is the requested name; when there is none the handler raises
    [IndexError], and this is so for every requested name that contains a
    slash, whatever the module files are. *)
Theorem get_module_source_code_sends_a_module_file
    (module_files : list string) (module_filename : string) :
  (∀ f, get_module_source_code module_files module_filename = Returns f →
        os_path_basename f = module_filename ∧
        ∃ before after, module_files = before ++ f :: after ∧
                        ∀ g, g ∈ before → os_path_basename g ≠ module_filename) ∧
  ((∀ g, g ∈ module_files → os_path_basename g ≠ module_filename) →
   get_module_source_code module_files module_filename = Raises IndexError) ∧
  (slash ∈ chars module_filename →
   get_module_source_code module_files module_filename = Raises IndexError).
Proof.
  split; [|split; [apply get_module_source_code_none|]].
  - unfold get_module_source_code. intros f.
    induction module_files as [|g gs IH]; simpl; [discriminate|].
    destruct (String.eqb_spec (os_path_basename g) module_filename) as [Heq|Hne].
    + intros [= <-]. split; [done|]. exists [], gs. split; [done|].
      intros g' Hg'. by apply elem_of_nil in Hg'.
    + intros Hf. destruct (IH Hf) as (Hbase & before & after & -> & Hbefore).
      split; [done|]. exists (g :: before), after. split; [done|].
      intros g' Hg'. apply elem_of_cons in Hg' as [->|Hg']; [done|by apply Hbefore].
  - intros Hslash. apply get_module_source_code_none. intros g _ Heq.
    apply (basename_no_slash g). by rewrite Heq.
Qed.

(** *** The project pattern *)

Lemma match_here_lits (lits : list ascii) (rest : list item) (s : list ascii)
    (pos : nat) (g : span) :
  match_here (map (λ c, One (Lit c)) lits ++ rest) (lits ++ s) pos g =
  match_here rest s (pos + length lits) g.
Proof.
  revert pos. induction lits as [|c lits IH]; intros pos; simpl.
  - by rewrite Nat.add_0_r.
  - rewrite Ascii.eqb_refl, IH. f_equal. lia.
Qed.

Lemma match_here_lits_fail (lits : list ascii) (rest : list item) (s : list ascii)
    (pos : nat) (g : span) :
  ¬ lits `prefix_of` s →
  match_here (map (λ c, One (Lit c)) lits ++ rest) s pos g = None.
Proof.
  revert s pos. induction lits as [|c lits IH]; intros s pos Hn; simpl.
  - exfalso. apply Hn, prefix_nil.
  - destruct s as [|x s]; [done|].
    destruct (Ascii.eqb_spec x c) as [->|Hne]; [|done].
    apply IH. intros Hp. apply Hn. by apply prefix_cons.
Qed.

(** The search moves past the positions where the pattern does not match. *)
Lemma search_skip (r : list item) (pre s : list ascii) (pos : nat) :
  (∀ i, (i < length pre)%nat →
        match_here r (drop i (pre ++ s)) (pos + i) (None, None) = None) →
  search_from r (pre ++ s) pos = search_from r s (pos + length pre).
Proof.
  revert pos. induction pre as [|x pre IH]; intros pos H.
  - simpl. by rewrite Nat.add_0_r.
  - pose proof (H 0%nat) as H0. simpl in H0. rewrite Nat.add_0_r in H0.
    cbn [app search_from]. rewrite H0 by lia.
    rewrite IH.
    + f_equal. simpl. lia.
    + intros i Hi. specialize (H (S i)). simpl in H.
      replace (S pos + i)%nat with (pos + S i)%nat by lia. apply H. lia.
Qed.

Lemma search_hit (r : list item) (s : list ascii) (pos : nat) (g : span) :
  match_here r s pos (None, None) = Some g → search_from r s pos = Some g.
Proof. intros H. destruct s; simpl; by rewrite H. Qed.

(** On a path whose first [jterator_] is followed by [n], the search of
    [get_projects] captures [n]. *)
Lemma project_regex_search (pre n : string) :
  (∀ i, (i < length (chars pre))%nat →
        ¬ chars "jterator_" `prefix_of` drop i (chars (pre +:+ "jterator_" +:+ n))) →
  newline ∉ chars n →
  re_search project_regex (pre +:+ "jterator_" +:+ n) = Some n.
Proof.
  intros Hfirst Hn. unfold re_search. rewrite !chars_app in *.
  rewrite search_skip.
  2:{ intros i Hi. unfold project_regex. apply match_here_lits_fail. by apply Hfirst. }
  set (b := (0 + length (chars pre) + length (chars "jterator_"))%nat).
  rewrite (search_hit _ _ _ (Some b, Some (b + length (chars n))%nat)).
  - cbn [fmap option_fmap option_map group1].
    replace (b + length (chars n) - b)%nat with (length (chars n)) by lia.
    rewrite app_assoc, drop_app_length' by (subst b; rewrite length_app; lia).
    rewrite take_ge by lia. by rewrite str_chars.
  - unfold project_regex. rewrite match_here_lits. fold b. cbn [match_here fst snd].
    rewrite <- (app_nil_r (chars n)) at 1. apply star_app; [|done].
    apply Forall_forall. intros c Hc. simpl. apply negb_true_iff, Ascii.eqb_neq.
    intros ->. done.
Qed.

Variable list_projects : string → result (list string).
Variable project : Type.
Variable Project : string → string → result project.
Variable safe_dump : project → result string.
Variable step_location : Z → pyobj → result string.

(** X16: [get_projects] names each pipeline by what follows the first
    [jterator_] of the project directory.  When every listed directory is
    some prefix, then [jterator_], then a name without newline, with no
    earlier [jterator_] in the path, the projects are built, in order, from
    each directory together with that name; a [jterator_] earlier in the
    path would be the one that counts. *)
Theorem get_projects_names_pipelines
    (location : string) (dirs names : list string) :
  list_projects location = Ok dirs →
  Forall2
    (λ d n, ∃ pre,
       d = pre +:+ "jterator_" +:+ n ∧
       (∀ i, (i < length (chars pre))%nat →
             ¬ chars "jterator_" `prefix_of` drop i (chars d)) ∧
       (newline ∉ chars n))
    dirs names →
  get_projects list_projects project Project location =
  for_each (λ dn, Project dn.1 dn.2) (zip dirs names).
Proof.
  intros Hlist H. unfold get_projects. rewrite Hlist. simpl. clear Hlist.
  induction H as [|d n ds ns (pre & Hd & Hfirst & Hn) _ IH]; simpl; [done|].
  rewrite Hd in *. rewrite project_regex_search by done. simpl.
  destruct (Project _ n) as [proj|e]; simpl; [|done]. by rewrite IH.
Qed.

(** X17: [get_available_jtprojects] raises for every experiment.  The name
    [pipeline] is read among the arguments of [ImageAnalysisPipeline] and is
    bound neither in the function nor in the module, so the handler raises
    [NameError] before it looks at any project directory, whatever the
    experiment holds. *)
Theorem get_available_jtprojects_raises_NameError (experiment_id : Z) :
  get_available_jtprojects list_projects project Project safe_dump step_location
    experiment_id =
  Raise (NameError "pipeline").
Proof. reflexivity. Qed.

Variable engine_state : Type.
Variable getitem : pyobj → json → result pyobj.
Variable kill : pyobj → pyobj → engine_state → result unit * engine_state.

(** X18: [kill_jobs] never kills a job and never reports success.  For every
    request body, the engine is left as it was; an answer, when there is
    one, has [success] false, with the error ['No jobs were specified.'] for
    a task id that counts as false and the [NameError] message of the
    unbound name [tasks] otherwise.  A request without ['taskId'] raises
    [KeyError], and a task id that counts as true but cannot be formatted by
    ['%d'] makes the handler raise from its own [except] block. *)
Theorem kill_jobs_never_kills (data : json) (st : engine_state) :
  let out := kill_jobs engine_state getitem kill data st in
  out.2 = st ∧
  (∀ r, out.1 = Returns r →
        success r = false ∧
        ∃ persistent_id,
          subscript data "taskId" = Returns persistent_id ∧
          kill_error r =
            Some (if truthy persistent_id then "global name 'tasks' is not defined"
                  else "No jobs were specified.")) ∧
  (∀ items, data = JDict items → (∀ kv, kv ∈ items → kv.1 ≠ "taskId") →
            out.1 = Raises (Exn (KeyError "taskId"))) ∧
  (∀ persistent_id e,
     subscript data "taskId" = Returns persistent_id → truthy persistent_id = true →
     percent_d persistent_id = Raises e → out.1 = Raises e).
Proof.
  assert (Htasks : ∀ persistent_id,
    kill_task engine_state getitem kill
      {[ "data" := PyInstance "dict"; "persistent_id" := PyInstance "object" ]}
      persistent_id st = (Raise (NameError "tasks"), st)) by reflexivity.
  intros out. subst out. unfold kill_jobs.
  destruct (subscript data "taskId") as [v|e] eqn:Hsub.
  - rewrite Htasks. cbn [is_Exception]. destruct (truthy v) eqn:Hv.
    + destruct (percent_d v) as [text|e] eqn:Hd; simpl.
      * split; [done|]. split; [|split].
        -- intros r [= <-]. split; [done|]. exists v. by rewrite Hv.
        -- intros items -> Hall. simpl in Hsub.
           destruct (List.find _ (rev items)) as [kv|] eqn:Hfind; [|discriminate].
           apply find_some in Hfind as [Hin Hkey]. apply String.eqb_eq in Hkey.
           apply in_rev, list_elem_of_In in Hin. by destruct (Hall kv Hin).
        -- intros v' e' [= <-] _ He. congruence.
      * split; [done|]. split; [discriminate|]. split.
        -- intros items -> Hall. simpl in Hsub.
           destruct (List.find _ (rev items)) as [kv|] eqn:Hfind; [|discriminate].
           apply find_some in Hfind as [Hin Hkey]. apply String.eqb_eq in Hkey.
           apply in_rev, list_elem_of_In in Hin. by destruct (Hall kv Hin).
        -- intros v' e' [= <-] _ He. congruence.
    + simpl. split; [done|]. split; [|split].
      * intros r [= <-]. split; [done|]. exists v. by rewrite Hv.
      * intros items -> Hall. simpl in Hsub.
        destruct (List.find _ (rev items)) as [kv|] eqn:Hfind; [|discriminate].
        apply find_some in Hfind as [Hin Hkey]. apply String.eqb_eq in Hkey.
        apply in_rev, list_elem_of_In in Hin. by destruct (Hall kv Hin).
      * intros v' e' [= <-] Hv'. congruence.
  - simpl. split; [done|]. split; [discriminate|]. split; [|discriminate].
    intros items -> Hall. simpl in Hsub.
    destruct (List.find _ (rev items)) as [kv|] eqn:Hfind; [|congruence].
    discriminate.
Qed.

End JtuiRequestsProofs.

Section JtuiRequestsWitnesses.
Import Py Jtui JtuiRequests.

Lemma list_module_names_strips_two_extensions_witness :
  list_module_names sample_pipeline = ["align"; "segment"].
Proof.
  apply (list_module_names_strips_two_extensions sample_pipeline ["align"; "segment"]).
  simpl. repeat constructor.
  - exists "handles/", "handles", "yaml". split; [reflexivity|].
    split; [right; by exists "handles"|].
    split; [apply (bool_decide_unpack _); vm_compute; exact I|].
    split; [exists "a"%char; split; [apply list_elem_of_here|discriminate]|].
    repeat split; apply (bool_decide_unpack _); vm_compute; exact I.
  - exists "handles/", "handles", "yaml". split; [reflexivity|].
    split; [right; by exists "handles"|].
    split; [apply (bool_decide_unpack _); vm_compute; exact I|].
    split; [exists "s"%char; split; [apply list_elem_of_here|discriminate]|].
    repeat split; apply (bool_decide_unpack _); vm_compute; exact I.
Defined.

Lemma get_projects_names_pipelines_witness :
  get_projects (λ _, Ok ["/e/jterator_cells"; "jterator_nuclei"]) (string * string)
    (λ proj_dir pipeline, Ok (proj_dir, pipeline)) "/e" =
  Ok [("/e/jterator_cells", "cells"); ("jterator_nuclei", "nuclei")].
Proof.
  apply (get_projects_names_pipelines
           (λ _, Ok ["/e/jterator_cells"; "jterator_nuclei"]) (string * string)
           (λ proj_dir pipeline, Ok (proj_dir, pipeline)) "/e"
           ["/e/jterator_cells"; "jterator_nuclei"] ["cells"; "nuclei"]).
  - reflexivity.
  - repeat constructor.
    + exists "/e/". split; [reflexivity|]. split.
      * intros i Hi.
        do 3 (destruct i as [|i]; [apply (bool_decide_unpack _); vm_compute; exact I|]).
        simpl in Hi. lia.
      * apply (bool_decide_unpack _). vm_compute. exact I.
    + exists "". split; [reflexivity|]. split.
      * intros i Hi. simpl in Hi. lia.
      * apply (bool_decide_unpack _). vm_compute. exact I.
Defined.

End JtuiRequestsWitnesses.

(* ================================================================== *)
(** * The attribute dicts as objects: proofs                           *)
(* ================================================================== *)

Section LayerObjectsProofs.
Import Py ToolResult LabelQueries LayerObjects.

Lemma find_app_fresh (lid : Z) (rows : list LabelLayer) (row : LabelLayer) (more : list LabelLayer) :
  (∀ l, l ∈ rows → layer_id l ≠ lid) → layer_id row = lid →
  List.find (λ l, Z.eqb (layer_id l) lid) (rows ++ row :: more) = Some row.
Proof.
  intros Hfresh Hrow. induction rows as [|l rows IH]; simpl.
  - by rewrite Hrow, Z.eqb_refl.
  - destruct (Z.eqb_spec (layer_id l) lid) as [Heq|_].
    + exfalso. eapply Hfresh; [apply list_elem_of_here|done].
    + apply IH. intros l' Hl'. apply Hfresh. by right.
Qed.

(** Reading a dict object right after it was written. *)
Lemma deref_insert (h : heap) (r : ref) (v : gmap string attr) :
  deref (<[r := v]> h) r = v.
Proof. unfold deref. by rewrite (lookup_insert_eq h r v). Qed.

(** The rows the object-level constructors flush are those of the
    constructors on attribute values, for the content the dict has when the
    constructor is entered. *)
Lemma new_agrees_with_init (cls : string) (mt : Z) (labels : gmap Z label)
    (color_map : list (label * string)) (extra_attributes : option ref) (h : heap) (db : Session) :
  (LabelLayer_new cls mt labels extra_attributes (h, db)).2.2 =
    (LabelLayer_init cls mt labels
       (deref h (default LabelLayer_default extra_attributes)) db).2 ∧
  (ScalarLabelLayer_new cls mt labels extra_attributes (h, db)).2.2 =
    (ScalarLabelLayer_init cls mt labels
       (deref h (default ScalarLabelLayer_default extra_attributes)) db).2 ∧
  (SupervisedClassifierLabelLayer_new cls mt labels color_map extra_attributes (h, db)).2.2 =
    (SupervisedClassifierLabelLayer_init cls mt labels color_map
       (deref h (default SupervisedClassifierLabelLayer_default extra_attributes)) db).2 ∧
  (ContinuousLabelLayer_new cls mt labels extra_attributes (h, db)).2.2 =
    (ContinuousLabelLayer_init cls mt labels
       (deref h (default ContinuousLabelLayer_default extra_attributes)) db).2.
Proof.
  unfold SupervisedClassifierLabelLayer_new, ContinuousLabelLayer_new, ScalarLabelLayer_new,
    LabelLayer_new, SupervisedClassifierLabelLayer_init, ContinuousLabelLayer_init,
    ScalarLabelLayer_init.
  cbn [fst snd from_option id]. by rewrite !deref_insert.
Qed.

(** X19: two [ScalarLabelLayer]s built without [extra_attributes] share one
    attributes dict.  In a consistent session, after the second constructor
    call the first object's [attributes] is the very dict of the second and
    shows the unique labels of the second call, while the row flushed for
    the first object still holds the unique labels of the first call: the
    object and its row disagree whenever the two label sets differ. *)
Theorem default_attributes_are_shared
    (h : heap) (db : Session) (cls1 cls2 : string) (mt1 mt2 : Z) (labels1 labels2 : gmap Z label) :
  session_wf db →
  let first := ScalarLabelLayer_new cls1 mt1 labels1 None (h, db) in
  let second := ScalarLabelLayer_new cls2 mt2 labels2 None first.2 in
  attributes_ref first.1 = attributes_ref second.1 ∧
  object_attributes first.2 first.1 !! "unique_labels" =
    Some (ALabels (unique_labels labels1)) ∧
  object_attributes second.2 first.1 !! "unique_labels" =
    Some (ALabels (unique_labels labels2)) ∧
  ∃ row, row_of second.2 first.1 = Some row ∧
         attributes row !! "unique_labels" = Some (ALabels (unique_labels labels1)).
Proof.
  intros Hwf first second.
  split; [done|]. split; [|split].
  - subst first. unfold object_attributes, ScalarLabelLayer_new, LabelLayer_new.
    cbn [fst snd from_option id attributes_ref]. rewrite deref_insert.
    apply lookup_insert_eq.
  - subst first second. unfold object_attributes, ScalarLabelLayer_new, LabelLayer_new.
    cbn [fst snd from_option id attributes_ref]. rewrite deref_insert.
    apply lookup_insert_eq.
  - subst first second. unfold row_of, ScalarLabelLayer_new, LabelLayer_new, LabelLayer_init.
    cbn [fst snd from_option id attributes_ref object_id label_layers layer_id].
    eexists. split.
    + rewrite <- app_assoc. apply find_app_fresh; [|done].
      intros l Hl. pose proof (session_wf_layer_id db l Hwf Hl). lia.
    + cbn [attributes]. rewrite deref_insert. apply lookup_insert_eq.
Qed.

End LayerObjectsProofs.

Section LayerObjectsWitnesses.
Import Py ToolResult LabelQueries LayerObjects.

Lemma default_attributes_are_shared_witness :
  let first := ScalarLabelLayer_new "ScalarLabelLayer" 1 {[ 1 := LInt 5 ]} None
                 (initial_heap, empty_session) in
  let second := ScalarLabelLayer_new "ScalarLabelLayer" 1 {[ 2 := LInt 6 ]} None first.2 in
  attributes_ref first.1 = attributes_ref second.1 ∧
  object_attributes first.2 first.1 !! "unique_labels" =
    Some (ALabels (unique_labels {[ 1 := LInt 5 ]})) ∧
  object_attributes second.2 first.1 !! "unique_labels" =
    Some (ALabels (unique_labels {[ 2 := LInt 6 ]})) ∧
  ∃ row, row_of second.2 first.1 = Some row ∧
         attributes row !! "unique_labels" = Some (ALabels (unique_labels {[ 1 := LInt 5 ]})).
Proof.
  apply (default_attributes_are_shared initial_heap empty_session
           "ScalarLabelLayer" "ScalarLabelLayer" 1 1 {[ 1 := LInt 5 ]} {[ 2 := LInt 6 ]}).
  apply session_wf_empty.
Defined.

End LayerObjectsWitnesses.

(* ================================================================== *)
(** * What the constructors store: proofs                              *)
(* ================================================================== *)

Section ConstructorContractProofs.
Import Py ToolResult LabelQueries ConstructorContract.







End ConstructorContractProofs.

Section ConstructorContractWitnesses.
Import Py ToolResult LabelQueries ConstructorContract.


End ConstructorContractWitnesses.
